(** * AuthAI cloud core: a shallow embedding of [authai_core_cloud.py]

    The module simulates a behavioural-biometrics detector: a monitor
    fabricates six behavioural metrics, scores them with a loaded model and
    appends the result to a CSV log; a loader picks the model.

    Modelling choices, all taken from the source:
    - Python floats are idealised as rationals [Q]; a decimal literal of the
      source denotes its rational value, and comparisons are exact.
    - Python dictionaries whose iteration order is observable
      ([base_features], [features], the detection record) are association
      lists with unique keys and insertion order; a missing key raises
      [KeyError].
    - The file system is a finite map from paths to files.
    - Exceptions, console output, the random generators and the clock are
      explicit: every function runs in a state-and-exception monad. Every
      exception is an instance of [Exception].
    - Estimators and scalers are objects with optional methods, each a
      pure function that returns or raises.

    [CloudBotSimulator] only marks time and shares no state with the
    monitor; it is left out. *)

From Stdlib Require Import QArith.
From stdpp Require Import gmap strings list.

Open Scope string_scope.

(** ** Python values *)

(** A number as the source has it: [max(0, x)] yields the integer [0] or the
    float [x], so both kinds occur among the feature values. *)
Inductive Num : Type :=
  | NInt (z : Z)
  | NFloat (q : Q).

(** [float(n)], idealised. *)
Definition float_of (n : Num) : Q :=
  match n with
  | NInt z => inject_Z z
  | NFloat q => q
  end.

Inductive Value : Type :=
  | VStr (s : string)
  | VNum (n : Num).

(** ** Exceptions *)

Inductive ExnClass : Type :=
  | ImportError
  | KeyError
  | IndexError
  | AttributeError
  | OSError
  | OtherError
  | PlainException.

(** An exception: its class and the text [str(e)] gives. *)
Record exn : Type := Exn { exn_class : ExnClass; exn_msg : string }.

(** [isinstance(e, ImportError)], as the clause [except ImportError] tests. *)
Definition is_ImportError (e : exn) : bool :=
  match exn_class e with
  | ImportError => true
  | _ => false
  end.

Definition result (A : Type) : Type := (exn + A)%type.

(** ** The state-and-exception monad

    A computation takes a state and yields an exception or a value together
    with the state reached: effects done before a [raise] stay done. *)
Definition M (S A : Type) : Type := S -> result A * S.

Definition ret {S A} (a : A) : M S A := fun s => (inr a, s).

Definition raise {S A} (e : exn) : M S A := fun s => (inl e, s).

Definition bind {S A B} (c : M S A) (k : A -> M S B) : M S B :=
  fun s =>
    match c s with
    | (inr a, s') => k a s'
    | (inl e, s') => (inl e, s')
    end.

(** [try: body  except Exception as e: handler e]: every class of [exn] is a
    subclass of [Exception]. *)
Definition try_except {S A} (body : M S A) (handler : exn -> M S A) : M S A :=
  fun s =>
    match body s with
    | (inr a, s') => (inr a, s')
    | (inl e, s') => handler e s'
    end.

(** [try: body  except C as e: handler e] for a class test [is_c]. *)
Definition try_except_if {S A} (is_c : exn -> bool) (body : M S A)
    (handler : exn -> M S A) : M S A :=
  fun s =>
    match body s with
    | (inr a, s') => (inr a, s')
    | (inl e, s') => if is_c e then handler e s' else (inl e, s')
    end.

Definition get {S} : M S S := fun s => (inr s, s).
Definition gets {S A} (f : S -> A) : M S A := fun s => (inr (f s), s).
Definition modify {S} (f : S -> S) : M S unit := fun s => (inr tt, f s).

(** A fallible pure step. *)
Definition lift_result {S A} (r : result A) : M S A := fun s => (r, s).

Notation "'let!' x ':=' c 'in' k" := (bind c (fun x => k))
  (at level 10, x name, c at level 100, k at level 200).
Notation "'do!' c 'in' k" := (bind c (fun _ => k))
  (at level 10, c at level 100, k at level 200).

(** ** Dictionaries with insertion order *)

Definition dict (A : Type) : Type := list (string * A).

Fixpoint dict_lookup {A} (k : string) (d : dict A) : option A :=
  match d with
  | [] => None
  | (k', v) :: d' => if String.eqb k k' then Some v else dict_lookup k d'
  end.

(** [d[k]]: raises [KeyError] on a missing key; [str] of a [KeyError] is the
    quoted key. *)
Definition dict_get {A} (k : string) (d : dict A) : result A :=
  match dict_lookup k d with
  | Some v => inr v
  | None => inl (Exn KeyError ("'" ++ k ++ "'"))
  end.

(** [d[k] = v]: an existing key keeps its position, a new key goes last. *)
Fixpoint dict_set {A} (k : string) (v : A) (d : dict A) : dict A :=
  match d with
  | [] => [(k, v)]
  | (k', v') :: d' =>
      if String.eqb k k' then (k', v) :: d' else (k', v') :: dict_set k v d'
  end.

(** A dictionary display [{k1: v1, ..., **d}]: items are stored left to
    right. *)
Definition dict_update {A} (d : dict A) (items : dict A) : dict A :=
  fold_left (fun acc kv => dict_set (fst kv) (snd kv) acc) items d.

(** ** Arrays, estimators and scalers *)

(** A two-dimensional [numpy] array of floats. *)
Definition array2 : Type := list (list Q).

(** An object as the monitor uses it, by duck typing: each method is present
    or not ([hasattr]), and a call returns or raises. A label is an
    integer, as the estimators' [predict] returns. *)
Record PyObj : Type := {
  predict_proba : option (array2 -> result array2);
  predict : option (array2 -> result (list Z));
  transform : option (array2 -> result array2)
}.

(** [obj.name] for a method: [AttributeError] when it is absent. *)
Definition getattr {A} (name : string) (meth : option A) : result A :=
  match meth with
  | Some f => inr f
  | None => inl (Exn AttributeError ("object has no attribute '" ++ name ++ "'"))
  end.

(** [xs[i]] on a sequence. *)
Definition index {A} (i : nat) (xs : list A) : result A :=
  match nth_error xs i with
  | Some x => inr x
  | None => inl (Exn IndexError "index out of range")
  end.

(** The constructor arguments of [RandomForestClassifier] the source sets. *)
Record RFParams : Type := { n_estimators : Z; random_state : option Z }.

(** scikit-learn's documented defaults for these two arguments. *)
Definition RandomForestClassifier_defaults : RFParams :=
  {| n_estimators := 100; random_state := None |}.

(** ** The world outside the module *)

(** A CSV row is the list of the cells written. *)
Definition row : Type := list Value.

(** A file, seen by its two readers: the CSV rows it holds and what
    [joblib.load] makes of it. *)
Record File : Type := { rows : list row; unpickle : result PyObj }.

Record World : Type := {
  files : gmap string File;
  (** paths that cannot be opened for writing *)
  readonly : gset string;
  (** lines printed so far, oldest first *)
  console : list string;
  (** the [random] module: standard normal deviates and a cursor *)
  gauss_draws : nat -> Q;
  gauss_pos : nat;
  (** the wall clock: the ISO-8601 UTC text of each successive reading *)
  clock : nat -> string;
  clock_pos : nat;
  (** [numpy.random]: raw draws and a cursor *)
  np_stream : nat -> Z;
  np_pos : nat;
  (** whether [joblib] can be imported *)
  joblib_available : bool;
  (** [sklearn.ensemble], when it can be imported: what fitting a random
      forest with given arguments on given data yields *)
  sklearn : option (RFParams -> array2 -> list Z -> PyObj)
}.

Definition set_files (f : gmap string File) (w : World) : World :=
  {| files := f; readonly := readonly w; console := console w;
     gauss_draws := gauss_draws w; gauss_pos := gauss_pos w;
     clock := clock w; clock_pos := clock_pos w;
     np_stream := np_stream w; np_pos := np_pos w;
     joblib_available := joblib_available w; sklearn := sklearn w |}.

Definition set_console (c : list string) (w : World) : World :=
  {| files := files w; readonly := readonly w; console := c;
     gauss_draws := gauss_draws w; gauss_pos := gauss_pos w;
     clock := clock w; clock_pos := clock_pos w;
     np_stream := np_stream w; np_pos := np_pos w;
     joblib_available := joblib_available w; sklearn := sklearn w |}.

Definition set_gauss_pos (n : nat) (w : World) : World :=
  {| files := files w; readonly := readonly w; console := console w;
     gauss_draws := gauss_draws w; gauss_pos := n;
     clock := clock w; clock_pos := clock_pos w;
     np_stream := np_stream w; np_pos := np_pos w;
     joblib_available := joblib_available w; sklearn := sklearn w |}.

Definition set_clock_pos (n : nat) (w : World) : World :=
  {| files := files w; readonly := readonly w; console := console w;
     gauss_draws := gauss_draws w; gauss_pos := gauss_pos w;
     clock := clock w; clock_pos := n;
     np_stream := np_stream w; np_pos := np_pos w;
     joblib_available := joblib_available w; sklearn := sklearn w |}.

Definition set_np_pos (n : nat) (w : World) : World :=
  {| files := files w; readonly := readonly w; console := console w;
     gauss_draws := gauss_draws w; gauss_pos := gauss_pos w;
     clock := clock w; clock_pos := clock_pos w;
     np_stream := np_stream w; np_pos := n;
     joblib_available := joblib_available w; sklearn := sklearn w |}.

(** The world after one more line on the console. *)
Definition say (s : string) (w : World) : World :=
  set_console (console w ++ [s]) w.

(** [print(s)] *)
Definition print (s : string) : M World unit := modify (say s).

(** [os.path.exists(p)] *)
Definition os_path_exists (p : string) : M World bool :=
  gets (fun w => bool_decide (is_Some (files w !! p))).

Definition PermissionError (p : string) : exn :=
  Exn OSError ("[Errno 13] Permission denied: '" ++ p ++ "'").

(** What [joblib.load] makes of a file that holds CSV text only. *)
Definition not_a_pickle : result PyObj :=
  inl (Exn OtherError "invalid load key").

(** [open(p, 'w')]: the file is created or truncated. *)
Definition open_w (p : string) : M World unit :=
  fun w =>
    if bool_decide (p ∈ readonly w) then (inl (PermissionError p), w)
    else (inr tt,
          set_files (<[p := {| rows := []; unpickle := not_a_pickle |}]> (files w)) w).

(** [open(p, 'a')]: the file is created when absent and kept otherwise. *)
Definition open_a (p : string) : M World unit :=
  fun w =>
    if bool_decide (p ∈ readonly w) then (inl (PermissionError p), w)
    else match files w !! p with
         | Some _ => (inr tt, w)
         | None =>
             (inr tt,
              set_files (<[p := {| rows := []; unpickle := not_a_pickle |}]> (files w)) w)
         end.

(** [csv.writer(f).writerow(r)] on the open file at [p]: one row is added at
    the end. Text after a pickle does not change what [joblib.load] reads. *)
Definition writerow (p : string) (r : row) : M World unit :=
  modify (fun w =>
    match files w !! p with
    | Some f =>
        set_files (<[p := {| rows := rows f ++ [r]; unpickle := unpickle f |}]> (files w)) w
    | None => w
    end).

(** [joblib.load(p)] *)
Definition joblib_load (p : string) : M World PyObj :=
  fun w =>
    match files w !! p with
    | Some f => (unpickle f, w)
    | None => (inl (Exn OSError ("[Errno 2] No such file or directory: '" ++ p ++ "'")), w)
    end.

(** [random.gauss(mu, sigma)]: the next standard normal deviate [z] gives
    [mu + z * sigma]. *)
Definition random_gauss (mu sigma : Q) : M World Q :=
  fun w =>
    (inr (mu + gauss_draws w (gauss_pos w) * sigma)%Q,
     set_gauss_pos (S (gauss_pos w)) w).

(** [datetime.now(timezone.utc).isoformat()] *)
Definition datetime_now_isoformat : M World string :=
  fun w => (inr (clock w (clock_pos w)), set_clock_pos (S (clock_pos w)) w).

(** A uniform float of [[0, 1)] from a raw draw: 53 bits over [2^53]. *)
Definition uniform_of (raw : Z) : Q :=
  Qmake (raw mod 2 ^ 53) (2 ^ 53).

(** [np.random.rand(r, c)] *)
Definition np_random_rand (r c : nat) : M World array2 :=
  fun w =>
    let p := np_pos w in
    (inr (map (fun i => map (fun j => uniform_of (np_stream w (p + i * c + j)))
                            (seq 0 c))
              (seq 0 r)),
     set_np_pos (p + r * c) w).

(** [np.random.randint(low, high, n)]: [n] integers of [[low, high)]. *)
Definition np_random_randint (low high : Z) (n : nat) : M World (list Z) :=
  fun w =>
    let p := np_pos w in
    (inr (map (fun i => (low + np_stream w (p + i) mod (high - low))%Z) (seq 0 n)),
     set_np_pos (p + n) w).

(** [import joblib] *)
Definition import_joblib : M World unit :=
  fun w =>
    if joblib_available w then (inr tt, w)
    else (inl (Exn ImportError "No module named 'joblib'"), w).

(** [from sklearn.ensemble import RandomForestClassifier] *)
Definition import_RandomForestClassifier
    : M World (RFParams -> array2 -> list Z -> PyObj) :=
  fun w =>
    match sklearn w with
    | Some fit => (inr fit, w)
    | None => (inl (Exn ImportError "No module named 'sklearn'"), w)
    end.

(** ** Comparisons on floats *)

(** [a > b] *)
Definition Qgt_bool (a b : Q) : bool := negb (Qle_bool a b).

(** [max(0, x)]: the first argument is kept unless the second is greater. *)
Definition py_max0 (x : Q) : Num :=
  if Qgt_bool x 0 then NFloat x else NInt 0.

(** ** The monitor *)

Record Monitor : Type := {
  model_name : string;
  model : PyObj;
  scaler : option PyObj;
  ae_meta : option PyObj;
  window_seconds : Q;
  detection_interval : Q;
  is_running : bool;
  detection_thread : option unit;
  log_file : string;
  base_features : dict Q;
  feature_variance : dict Q
}.

Definition set_is_running (b : bool) (m : Monitor) : Monitor :=
  {| model_name := model_name m; model := model m; scaler := scaler m;
     ae_meta := ae_meta m; window_seconds := window_seconds m;
     detection_interval := detection_interval m; is_running := b;
     detection_thread := detection_thread m; log_file := log_file m;
     base_features := base_features m;
     feature_variance := feature_variance m |}.

Definition set_simulation (base variance : dict Q) (m : Monitor) : Monitor :=
  {| model_name := model_name m; model := model m; scaler := scaler m;
     ae_meta := ae_meta m; window_seconds := window_seconds m;
     detection_interval := detection_interval m; is_running := is_running m;
     detection_thread := detection_thread m; log_file := log_file m;
     base_features := base; feature_variance := variance |}.

(** What a method runs on: the object [self] and the world. *)
Record Ctx : Type := { self : Monitor; world : World }.

(** A step on the world alone, run inside a method. *)
Definition liftW {A} (c : M World A) : M Ctx A :=
  fun s =>
    let (r, w') := c (world s) in
    (r, {| self := self s; world := w' |}).

(** An assignment to attributes of [self]. *)
Definition modify_self (f : Monitor -> Monitor) : M Ctx unit :=
  modify (fun s => {| self := f (self s); world := world s |}).

Definition get_self {A} (f : Monitor -> A) : M Ctx A :=
  gets (fun s => f (self s)).

Module CloudRealTimeMonitor.

Definition headers : row :=
  [VStr "timestamp"; VStr "user_id"; VStr "model"; VStr "score";
   VStr "is_improper"; VStr "avg_mouse_speed"; VStr "avg_typing_speed";
   VStr "tab_switch_rate"; VStr "mouse_click_rate";
   VStr "keyboard_error_rate"; VStr "active_window_duration"].

Definition _init_log_file : M Ctx unit :=
  let! p := get_self log_file in
  let! ex := liftW (os_path_exists p) in
  if negb ex then
    do! liftW (open_w p) in
    liftW (writerow p headers)
  else ret tt.

Definition init_base_features : dict Q :=
  [("avg_mouse_speed", 150.0); ("avg_typing_speed", 200.0);
   ("tab_switch_rate", 0.5); ("mouse_click_rate", 2.0);
   ("keyboard_error_rate", 0.05); ("active_window_duration", 10.0)]%Q.

Definition init_feature_variance : dict Q :=
  [("avg_mouse_speed", 50.0); ("avg_typing_speed", 80.0);
   ("tab_switch_rate", 0.2); ("mouse_click_rate", 1.0);
   ("keyboard_error_rate", 0.03); ("active_window_duration", 5.0)]%Q.

(** [__init__]: the attributes are set, the log file is initialised, then
    the simulation parameters are set. The two dictionaries do not exist
    yet while [_init_log_file] runs, which reads [log_file] only. An
    exception of [_init_log_file] leaves no monitor. *)
Definition __init__ (model_name : string) (model : PyObj)
    (scaler ae_meta : option PyObj) (window_seconds detection_interval : Q)
    : M World Monitor :=
  fun w =>
    let m0 :=
      {| model_name := model_name; model := model; scaler := scaler;
         ae_meta := ae_meta; window_seconds := window_seconds;
         detection_interval := detection_interval; is_running := false;
         detection_thread := None; log_file := "detections_log.csv";
         base_features := []; feature_variance := [] |} in
    match _init_log_file {| self := m0; world := w |} with
    | (inr _, s) =>
        (inr (set_simulation init_base_features init_feature_variance (self s)),
         world s)
    | (inl e, s) => (inl e, world s)
    end.

(** The body of the loop of [_generate_simulated_features], over the items
    of [base_features] still to visit. *)
Fixpoint generate_loop (items : list (string * Q)) (features : dict Num)
    : M Ctx (dict Num) :=
  match items with
  | [] => ret features
  | (feature, base_value) :: rest =>
      let! fv := get_self feature_variance in
      let! variance := lift_result (dict_get feature fv) in
      let! g := liftW (random_gauss 0 variance) in
      generate_loop rest
        (dict_set feature (py_max0 (base_value + g)) features)
  end.

Definition _generate_simulated_features : M Ctx (dict Num) :=
  let! bf := get_self base_features in
  generate_loop bf [].

(** The array [np.array([[...]])] built from the six named fields. *)
Definition build_feature_array (features : dict Num) : result array2 :=
  match dict_get "avg_mouse_speed" features with inl e => inl e | inr f1 =>
  match dict_get "avg_typing_speed" features with inl e => inl e | inr f2 =>
  match dict_get "tab_switch_rate" features with inl e => inl e | inr f3 =>
  match dict_get "mouse_click_rate" features with inl e => inl e | inr f4 =>
  match dict_get "keyboard_error_rate" features with inl e => inl e | inr f5 =>
  match dict_get "active_window_duration" features with inl e => inl e | inr f6 =>
    inr [[float_of f1; float_of f2; float_of f3;
          float_of f4; float_of f5; float_of f6]]
  end end end end end end.

(** [if self.scaler: feature_array = self.scaler.transform(feature_array)] *)
Definition apply_scaler (sc : option PyObj) (feature_array : array2)
    : result array2 :=
  match sc with
  | Some s =>
      match getattr "transform" (transform s) with
      | inl e => inl e
      | inr tr => tr feature_array
      end
  | None => inr feature_array
  end.

(** The score of the probability branch: [pred_proba[1]] when the row
    has more than one entry, [pred_proba[0]] otherwise. *)
Definition proba_score (pp : array2 -> result array2)
    (feature_array : array2) : result Q :=
  match pp feature_array with
  | inl e => inl e
  | inr out =>
      match index 0 out with
      | inl e => inl e
      | inr pred_proba =>
          if (1 <? length pred_proba)%nat
          then index 1 pred_proba
          else index 0 pred_proba
      end
  end.

(** The score of the label branch. *)
Definition label_score (mdl : PyObj) (feature_array : array2) : result Q :=
  match getattr "predict" (predict mdl) with
  | inl e => inl e
  | inr pr =>
      match pr feature_array with
      | inl e => inl e
      | inr out =>
          match index 0 out with
          | inl e => inl e
          | inr pred => inr (if (pred =? -1)%Z then 0.8 else 0.2)%Q
          end
      end
  end.

(** [if hasattr(self.model, 'predict_proba'): ... else: ...] *)
Definition model_score (mdl : PyObj) (feature_array : array2) : result Q :=
  match predict_proba mdl with
  | Some pp => proba_score pp feature_array
  | None => label_score mdl feature_array
  end.

(** [1 if score > 0.5 else 0] *)
Definition improper_of (score : Q) : Z :=
  if Qgt_bool score 0.5 then 1%Z else 0%Z.

(** The dictionary returned for a score. *)
Definition prediction_of (score : Q) : dict Value :=
  let is_improper := improper_of score in
  [("score", VNum (NFloat score));
   ("is_improper", VNum (NInt is_improper));
   ("prediction", VStr (if (is_improper =? 0)%Z then "Person" else "Robot"))].

(** The result returned when the prediction raised. *)
Definition default_prediction : dict Value :=
  [("score", VNum (NFloat 0.1)); ("is_improper", VNum (NInt 0));
   ("prediction", VStr "Person")].

(** The body of the [try] of [_predict_with_model]. *)
Definition predict_body (features : dict Num) : M Ctx (dict Value) :=
  let! feature_array := lift_result (build_feature_array features) in
  let! sc := get_self scaler in
  let! feature_array := lift_result (apply_scaler sc feature_array) in
  let! mdl := get_self model in
  let! score := lift_result (model_score mdl feature_array) in
  ret (prediction_of score).

Definition _predict_with_model (features : dict Num) : M Ctx (dict Value) :=
  try_except (predict_body features)
    (fun e =>
       do! liftW (print ("Prediction error: " ++ exn_msg e)) in
       ret default_prediction).

(** The keys of the columns, in the order [_log_detection] reads them. *)
Definition columns : list string :=
  ["timestamp"; "user_id"; "model"; "score"; "is_improper";
   "avg_mouse_speed"; "avg_typing_speed"; "tab_switch_rate";
   "mouse_click_rate"; "keyboard_error_rate"; "active_window_duration"].

(** The list [[detection['timestamp'], ...]], evaluated left to right. *)
Fixpoint detection_row (keys : list string) (detection : dict Value)
    : result row :=
  match keys with
  | [] => inr []
  | k :: keys' =>
      match dict_get k detection with
      | inl e => inl e
      | inr c =>
          match detection_row keys' detection with
          | inl e => inl e
          | inr r => inr (c :: r)
          end
      end
  end.

(** The body of the [try] of [_log_detection]: the file is opened, then
    the row is evaluated and written. *)
Definition log_body (detection : dict Value) : M Ctx unit :=
  let! p := get_self log_file in
  do! liftW (open_a p) in
  let! r := lift_result (detection_row columns detection) in
  liftW (writerow p r).

Definition _log_detection (detection : dict Value) : M Ctx unit :=
  try_except (log_body detection)
    (fun e => liftW (print ("Logging error: " ++ exn_msg e))).

(** The dictionary display of [run_detection_once]: five entries, then
    [**features]. *)
Definition assemble (ts name : string) (score is_improper : Value)
    (features : dict Num) : dict Value :=
  dict_update []
    ([("timestamp", VStr ts); ("user_id", VStr "cloud_user");
      ("model", VStr name); ("score", score);
      ("is_improper", is_improper)]
     ++ map (fun kv => (fst kv, VNum (snd kv))) features)%list.

(** The body of the [try] of [run_detection_once]. *)
Definition detection_body : M Ctx (option (dict Value)) :=
  let! features := _generate_simulated_features in
  let! prediction_result := _predict_with_model features in
  let! ts := liftW datetime_now_isoformat in
  let! name := get_self model_name in
  let! score := lift_result (dict_get "score" prediction_result) in
  let! is_improper :=
    lift_result (dict_get "is_improper" prediction_result) in
  let detection := assemble ts name score is_improper features in
  do! _log_detection detection in
  ret (Some detection).

(** [run_detection_once]: the record returned, or [None]. *)
Definition run_detection_once : M Ctx (option (dict Value)) :=
  try_except detection_body
    (fun e =>
       do! liftW (print ("Detection error: " ++ exn_msg e)) in
       ret None).

(** A driver that calls [run_detection_once] [n] times in a row and
    collects what the calls return. *)
Fixpoint run_ticks (n : nat) : M Ctx (list (option (dict Value))) :=
  match n with
  | O => ret []
  | S n' =>
      let! d := run_detection_once in
      let! ds := run_ticks n' in
      ret (d :: ds)
  end.

Definition start : M Ctx unit :=
  do! modify_self (set_is_running true) in
  let! name := get_self model_name in
  liftW (print ("Started cloud simulation monitor with model: " ++ name)).

Definition stop : M Ctx unit :=
  do! modify_self (set_is_running false) in
  liftW (print "Stopped cloud simulation monitor").

End CloudRealTimeMonitor.

(** ** The model loader *)

(** [s.replace(old, new)]: every occurrence of [old], left to right and
    without overlap. [skip] counts the characters of a match still to
    drop. *)
Fixpoint replace_from (old new : string) (skip : nat) (s : string) : string :=
  match s with
  | EmptyString => EmptyString
  | String c s' =>
      match skip with
      | S k => replace_from old new k s'
      | O =>
          if String.prefix old s
          then new ++ replace_from old new (String.length old - 1) s'
          else String c (replace_from old new 0 s')
      end
  end.

(** With an empty [old], [new] goes before every character and at the
    end. *)
Fixpoint interleave (new s : string) : string :=
  match s with
  | EmptyString => new
  | String c s' => new ++ String c (interleave new s')
  end.

Definition str_replace (old new s : string) : string :=
  match old with
  | EmptyString => interleave new s
  | _ => replace_from old new 0 s
  end.

(** The marks the messages of the loader begin with, as the source file
    holds them. *)
Definition mark_ok : string := "âœ…".
Definition mark_info : string := "â„¹ï¸".
Definition mark_failed : string := "âŒ".

(** What the loader returns: model name, model, scaler, extra metadata. *)
Definition Loaded : Type := (string * PyObj * option PyObj * option PyObj)%type.

Definition model_files : list (string * string) :=
  [("RandomForest", "models/rf_model.joblib");
   ("XGBoost", "models/xgb_model.joblib");
   ("IsolationForest", "models/iso_model.joblib")].

(** The arguments the demo classifier is built with. *)
Definition demo_params : RFParams :=
  {| n_estimators := 10; random_state := Some 42%Z |}.

(** The loop over the candidates still to try: [Some] when its body
    returned, [None] when it ran to its end. *)
Fixpoint load_loop (candidates : list (string * string))
    : M World (option Loaded) :=
  match candidates with
  | [] => ret None
  | (model_name, model_path) :: rest =>
      let! ex := os_path_exists model_path in
      if ex then
        let! returned :=
          try_except
            (let! model := joblib_load model_path in
             do! print (mark_ok ++ " Loaded " ++ model_name ++ " model from "
                        ++ model_path) in
             let scaler_path :=
               str_replace "_model.joblib" "_scaler.joblib" model_path in
             let! ex_s := os_path_exists scaler_path in
             let! scaler :=
               if ex_s then
                 let! s := joblib_load scaler_path in
                 do! print (mark_ok ++ " Loaded scaler from " ++ scaler_path) in
                 ret (Some s)
               else ret None in
             ret (Some (model_name, model, scaler, None)))
            (fun e =>
               do! print ("Failed to load " ++ model_name ++ ": " ++ exn_msg e) in
               ret None) in
        match returned with
        | Some t => ret (Some t)
        | None => load_loop rest
        end
      else load_loop rest
  end.

Definition load_best_model_and_meta : M World Loaded :=
  try_except_if is_ImportError
    (do! import_joblib in
     let! returned := load_loop model_files in
     match returned with
     | Some t => ret t
     | None =>
         do! print (mark_info
                    ++ " No trained models found, creating demo classifier...") in
         let! fit := import_RandomForestClassifier in
         let! X_demo := np_random_rand 100 6 in
         let! y_demo := np_random_randint 0 2 100 in
         let demo_model := fit demo_params X_demo y_demo in
         do! print (mark_ok ++ " Created demo RandomForest model") in
         ret ("Demo_RandomForest", demo_model, None, None)
     end)
    (fun _ =>
       do! print (mark_failed ++ " Required libraries not available") in
       raise (Exn PlainException "Failed to load or create model")).

(** ** A caller's script *)

(** The operations a caller has on a monitor. *)
Inductive MonitorOp : Type :=
  | OpStart
  | OpStop
  | OpTick.

(** A caller that performs the operations of a script in order; the
    results of the ticks are collected. *)
Fixpoint run_script (ops : list MonitorOp)
    : M Ctx (list (option (dict Value))) :=
  match ops with
  | [] => ret []
  | OpStart :: rest =>
      do! CloudRealTimeMonitor.start in run_script rest
  | OpStop :: rest =>
      do! CloudRealTimeMonitor.stop in run_script rest
  | OpTick :: rest =>
      let! d := CloudRealTimeMonitor.run_detection_once in
      let! ds := run_script rest in
      ret (d :: ds)
  end.

(** ** The self-test of the module *)

(** What Python's string formatting makes of the values printed: [str] of
    a value, of a number and of a loop index, and the format [.3f], which
    raises on what is not a number. The texts are not modelled; every
    property holds for every formatter. *)
Record Formatter : Type := {
  str_value : Value -> string;
  format_3f : Value -> result string;
  str_nat : nat -> string;
  str_num : Num -> string
}.

(** A method call on a local object: the result and the object after the
    call. *)
Definition call {A} (m : Monitor) (c : M Ctx A) : M World (A * Monitor) :=
  fun w =>
    match c {| self := m; world := w |} with
    | (inr a, s) => (inr (a, self s), world s)
    | (inl e, s) => (inl e, world s)
    end.

(** [time.sleep(d)]: a negative length raises; nothing the module reads
    changes otherwise (the readings of the clock are free). *)
Definition time_sleep (d : Q) : M World unit :=
  if Qgt_bool 0 d
  then raise (Exn OtherError "sleep length must be non-negative")
  else ret tt.

(** [if detection:] on what [run_detection_once] returned: [None] and the
    empty dictionary are false. *)
Definition truthy (detection : option (dict Value)) : bool :=
  match detection with
  | Some (_ :: _) => true
  | _ => false
  end.

Definition mark_title : string := "ðŸ”’".

(** The body of [for i in range(3)], over the indices still to visit. *)
Fixpoint main_loop (fmt : Formatter) (indices : list nat) (monitor : Monitor)
    : M World Monitor :=
  match indices with
  | [] => ret monitor
  | i :: rest =>
      let! r := call monitor CloudRealTimeMonitor.run_detection_once in
      let detection := fst r in
      let monitor := snd r in
      do! (if truthy detection then
             let d := default [] detection in
             let! p := lift_result (dict_get "prediction" d) in
             let! sc := lift_result (dict_get "score" d) in
             let! txt := lift_result (format_3f fmt sc) in
             print ("Detection " ++ str_nat fmt (i + 1) ++ ": "
                    ++ str_value fmt p ++ " (score: " ++ txt ++ ")")
           else ret tt) in
      do! time_sleep 1 in
      main_loop fmt rest monitor
  end.

(** The body of the [try] of the block under
    [if __name__ == "__main__"]. *)
Definition main_body (fmt : Formatter) : M World unit :=
  let! loaded := load_best_model_and_meta in
  let model_name := fst (fst (fst loaded)) in
  let model := snd (fst (fst loaded)) in
  let scaler := snd (fst loaded) in
  let ae_meta := snd loaded in
  do! print (mark_ok ++ " Successfully loaded model: " ++ model_name) in
  let! monitor :=
    CloudRealTimeMonitor.__init__ model_name model scaler ae_meta 30.0 2.0 in
  let! r := call monitor CloudRealTimeMonitor.start in
  let! monitor := main_loop fmt (seq 0 3) (snd r) in
  let! r := call monitor CloudRealTimeMonitor.stop in
  print (mark_ok ++ " Cloud core module test completed successfully!").

(** The block under [if __name__ == "__main__"]. *)
Definition main (fmt : Formatter) : M World unit :=
  do! print (mark_title ++ " AuthAI Cloud Core Module Test") in
  try_except (main_body fmt)
    (fun e => print (mark_failed ++ " Test failed: " ++ exn_msg e)).

(** ** The bot simulator *)

Definition mark_bot : string := "ðŸ¤–".

Module CloudBotSimulator.

Record Simulator : Type := {
  duration_sec : Num;
  step_interval : Num;
  is_running : bool
}.

(** What the simulator runs in: the console, the readings [time.time()]
    gives one after the other, and the sleeps done so far. The simulator
    has no lock on its flag: [cleared n] tells whether another thread has
    set [is_running] to [False], after [run] set it, by the time [n]
    readings of the clock have been taken. *)
Record BotState : Type := {
  sim : Simulator;
  out : list string;
  wall : nat -> Q;
  wall_pos : nat;
  naps : list Q;
  cleared : nat -> bool
}.

Definition set_sim (x : Simulator) (s : BotState) : BotState :=
  {| sim := x; out := out s; wall := wall s; wall_pos := wall_pos s;
     naps := naps s; cleared := cleared s |}.

Definition set_flag (b : bool) (s : BotState) : BotState :=
  set_sim {| duration_sec := duration_sec (sim s);
             step_interval := step_interval (sim s);
             is_running := b |} s.

(** [__init__(duration_sec=15, step_interval=0.5)] *)
Definition __init__ (duration step : Num) : Simulator :=
  {| duration_sec := duration; step_interval := step; is_running := false |}.

Definition bot_print (line : string) : M BotState unit :=
  modify (fun s =>
    {| sim := sim s; out := out s ++ [line]; wall := wall s;
       wall_pos := wall_pos s; naps := naps s; cleared := cleared s |}).

(** [time.time()] *)
Definition time_time : M BotState Q :=
  fun s =>
    (inr (wall s (wall_pos s)),
     {| sim := sim s; out := out s; wall := wall s;
        wall_pos := S (wall_pos s); naps := naps s; cleared := cleared s |}).

(** [time.sleep(d)] *)
Definition bot_sleep (d : Q) : M BotState unit :=
  fun s =>
    if Qgt_bool 0 d
    then (inl (Exn OtherError "sleep length must be non-negative"), s)
    else (inr tt,
          {| sim := sim s; out := out s; wall := wall s;
             wall_pos := wall_pos s; naps := naps s ++ [d];
             cleared := cleared s |}).

(** Reading [self.is_running]: what another thread wrote is seen. *)
Definition read_flag : M BotState bool :=
  fun s =>
    let b := is_running (sim s) && negb (cleared s (wall_pos s)) in
    (inr b, set_flag b s).

(** The [while] loop of [run]: [None] when the fuel runs out. The time
    test comes first and the flag is read only when it holds. *)
Fixpoint loop (fuel : nat) (start_time : Q) (s : BotState)
    : option (result unit * BotState) :=
  match fuel with
  | O => None
  | S fuel' =>
      match time_time s with
      | (inl e, s1) => Some (inl e, s1)
      | (inr now, s1) =>
          if Qgt_bool (float_of (duration_sec (sim s1))) (now - start_time)
          then
            match read_flag s1 with
            | (inl e, s2) => Some (inl e, s2)
            | (inr false, s2) => Some (inr tt, s2)
            | (inr true, s2) =>
                match bot_sleep (float_of (step_interval (sim s2))) s2 with
                | (inl e, s3) => Some (inl e, s3)
                | (inr _, s3) => loop fuel' start_time s3
                end
            end
          else Some (inr tt, s1)
      end
  end.

Definition run (fmt : Formatter) (fuel : nat) (s : BotState)
    : option (result unit * BotState) :=
  let s0 := set_flag true s in
  match time_time s0 with
  | (inl e, s1) => Some (inl e, s1)
  | (inr start_time, s1) =>
      match bot_print (mark_bot ++ " Starting bot simulation for "
                       ++ str_num fmt (duration_sec (sim s1))
                       ++ " seconds...") s1 with
      | (inl e, s2) => Some (inl e, s2)
      | (inr _, s2) =>
          match loop fuel start_time s2 with
          | None => None
          | Some (inl e, s3) => Some (inl e, s3)
          | Some (inr _, s3) =>
              Some (bot_print (mark_bot ++ " Bot simulation completed")
                      (set_flag false s3))
          end
      end
  end.

End CloudBotSimulator.

(** * Concrete worlds and objects used by the examples *)

Module Examples.
Import CloudRealTimeMonitor.

(** An estimator with class probabilities [[1 - p, p]]. *)
Definition proba_model (p : Q) : PyObj :=
  {| predict_proba := Some (fun _ => inr [[(1 - p)%Q; p]]);
     predict := Some (fun _ => inr [if Qgt_bool p 0.5 then 1%Z else 0%Z]);
     transform := None |}.

(** An estimator with one probability per sample. *)
Definition single_proba_model (p : Q) : PyObj :=
  {| predict_proba := Some (fun _ => inr [[p]]);
     predict := None; transform := None |}.

(** An estimator with labels only, as an isolation forest. *)
Definition label_model (lbl : Z) : PyObj :=
  {| predict_proba := None;
     predict := Some (fun _ => inr [lbl]);
     transform := None |}.


(** A fit that keeps the number of estimators visible in its output. *)
Definition toy_fit (p : RFParams) (X : array2) (y : list Z) : PyObj :=
  {| predict_proba :=
       Some (fun _ => inr [[0%Q; inject_Z (n_estimators p)]]);
     predict := None; transform := None |}.

(** A world with the given files, all libraries, and constant sources. *)
Definition world_with (fs : gmap string File) (ro : gset string) : World :=
  {| files := fs; readonly := ro; console := [];
     gauss_draws := fun _ => 0%Q; gauss_pos := 0;
     clock := fun _ => "2024-01-01T00:00:00+00:00"; clock_pos := 0;
     np_stream := fun n => Z.of_nat n; np_pos := 0;
     joblib_available := true; sklearn := Some toy_fit |}.

Definition empty_world : World := world_with ∅ ∅.

(** An object that reports scores outside the unit interval as if they
    were probabilities. *)
Definition overconfident_model : PyObj :=
  {| predict_proba := Some (fun _ => inr [[0%Q; 1.5%Q]]);
     predict := None; transform := None |}.

(** A scaler that halves every entry. *)
Definition halving_scaler : PyObj :=
  {| predict_proba := None; predict := None;
     transform := Some (fun a => inr (map (map (fun x => x / 2)%Q) a)) |}.

(** The monitor [__init__] builds for a model, without scaler. *)
Definition monitor_of (name : string) (mdl : PyObj) : Monitor :=
  {| model_name := name; model := mdl; scaler := None; ae_meta := None;
     window_seconds := 30.0; detection_interval := 2.0;
     is_running := false; detection_thread := None;
     log_file := "detections_log.csv";
     base_features := init_base_features;
     feature_variance := init_feature_variance |}.

(** An estimator that reports the first feature, over 300, as the
    probability of the second class. *)
Definition first_feature_model : PyObj :=
  {| predict_proba :=
       Some (fun a =>
               match a with
               | (x :: _) :: _ => inr [[(1 - x / 300)%Q; (x / 300)%Q]]
               | _ => inl (Exn OtherError "bad shape")
               end);
     predict := None; transform := None |}.

Definition pickled (o : PyObj) : File :=
  {| rows := []; unpickle := inr o |}.

Definition corrupt_file : File :=
  {| rows := []; unpickle := inl (Exn OtherError "pickle data was truncated") |}.

(** The XGBoost model is there, without a scaler file. *)
Definition xgb_world : World :=
  world_with {[ "models/xgb_model.joblib" := pickled (proba_model 0.9) ]} ∅.

(** The random forest model is there and loads; its scaler file is
    there and does not deserialize. *)
Definition bad_scaler_world : World :=
  world_with
    (<["models/rf_model.joblib" := pickled (proba_model 0.9)]>
       {[ "models/rf_scaler.joblib" := corrupt_file ]}) ∅.

(** A freshly built monitor in a world without files. *)
Definition ctx_of (mdl : PyObj) : Ctx :=
  {| self := monitor_of "demo" mdl; world := empty_world |}.

(** A formatter that prints no digits. *)
Definition plain_fmt : Formatter :=
  {| str_value := fun v => match v with VStr t => t | VNum _ => "#" end;
     format_3f := fun v =>
       match v with
       | VNum _ => inr "#.###"
       | VStr _ => inl (Exn OtherError "Unknown format code 'f'")
       end;
     str_nat := fun _ => "#";
     str_num := fun _ => "#" |}.

(** A bot simulator of one second in steps of half a second, on a clock
    that advances by half a second between two readings; nobody clears the
    flag. *)
Definition bot_state : CloudBotSimulator.BotState :=
  {| CloudBotSimulator.sim := CloudBotSimulator.__init__ (NInt 1) (NFloat 0.5);
     CloudBotSimulator.out := [];
     CloudBotSimulator.wall := fun n => (inject_Z (Z.of_nat n) * 0.5)%Q;
     CloudBotSimulator.wall_pos := 0;
     CloudBotSimulator.naps := [];
     CloudBotSimulator.cleared := fun _ => false |}.

(** The same simulator with a negative step. *)
Definition bot_state_negative_step : CloudBotSimulator.BotState :=
  CloudBotSimulator.set_sim
    (CloudBotSimulator.__init__ (NInt 1) (NFloat (-0.5))) bot_state.

(** A monitor whose [feature_variance] lacks the third metric. *)
Definition monitor_without_variance : Monitor :=
  set_simulation init_base_features
    [("avg_mouse_speed", 50.0%Q); ("avg_typing_speed", 80.0%Q)]
    (monitor_of "demo" (proba_model 0.9)).

End Examples.

Import CloudRealTimeMonitor.

(** * Vocabulary of the properties *)

(** A method is blind to the flag when it leaves [self] as it is and when
    running it with another value of the flag gives the same result and
    the same world. *)
Definition flag_blind {A} (c : M Ctx A) : Prop :=
  forall (b : bool) (m : Monitor) (w : World),
    self (snd (c {| self := m; world := w |})) = m
    /\ c {| self := set_is_running b m; world := w |}
       = (fst (c {| self := m; world := w |}),
          {| self := set_is_running b m;
             world := world (snd (c {| self := m; world := w |})) |}).

(** Every value of the dictionary is a number that is at least zero. *)
Definition all_nonneg (features : dict Num) : Prop :=
  Forall (fun kv => (0 <= float_of (snd kv))%Q) features.

(** The six fields drawn in a world: [max(0, base + gauss(0, sigma))] per
    metric, with the deviates taken in the order of [base_features]. *)
Definition drawn_features (w : World) : dict Num :=
  let z i := gauss_draws w (i + gauss_pos w) in
  let field base sigma i := py_max0 (base + (0 + z i * sigma))%Q in
  [("avg_mouse_speed", field 150.0 50.0 0%nat);
   ("avg_typing_speed", field 200.0 80.0 1%nat);
   ("tab_switch_rate", field 0.5 0.2 2%nat);
   ("mouse_click_rate", field 2.0 1.0 3%nat);
   ("keyboard_error_rate", field 0.05 0.03 4%nat);
   ("active_window_duration", field 10.0 5.0 5%nat)]%Q.

(** The simulation parameters are those [__init__] sets. *)
Definition simulation_intact (m : Monitor) : Prop :=
  base_features m = init_base_features
  /\ feature_variance m = init_feature_variance.

(** The score the body of the [try] computes on a monitor, or the
    exception it raises. *)
Definition score_for (m : Monitor) (features : dict Num) : result Q :=
  match build_feature_array features with
  | inl e => inl e
  | inr a =>
      match apply_scaler (scaler m) a with
      | inl e => inl e
      | inr a' => model_score (model m) a'
      end
  end.

(** The score a call ends with: the one computed, or the default [0.1]. *)
Definition score_or_default (m : Monitor) (features : dict Num) : Q :=
  match score_for m features with
  | inr sc => sc
  | inl _ => 0.1%Q
  end.

(** The state in which the logging step of a tick runs, from the state
    [s1] the features were generated in: the inference step has run and the
    clock has been read. *)
Definition before_log (features : dict Num) (s1 : Ctx) : Ctx :=
  let sp := snd (_predict_with_model features s1) in
  {| self := self sp;
     world := set_clock_pos (S (clock_pos (world sp))) (world sp) |}.

(** The record a tick assembles from the features generated in [s1]. *)
Definition record_of (features : dict Num) (s1 : Ctx) : dict Value :=
  let sc := score_or_default (self s1) features in
  assemble (clock (world s1) (clock_pos (world s1))) (model_name (self s1))
    (VNum (NFloat sc)) (VNum (NInt (improper_of sc))) features.

(** A record carries a score and a flag that agree: the flag is [1]
    exactly when the score exceeds [0.5]. *)
Definition flag_agrees (d : dict Value) : Prop :=
  exists sc i,
    dict_lookup "score" d = Some (VNum (NFloat sc))
    /\ dict_lookup "is_improper" d = Some (VNum (NInt i))
    /\ (i = 0%Z \/ i = 1%Z)
    /\ (i = 1%Z <-> (0.5 < sc)%Q).

(** The score of a record lies in the unit interval. *)
Definition score_in_unit (d : dict Value) : Prop :=
  exists sc,
    dict_lookup "score" d = Some (VNum (NFloat sc)) /\ (0 <= sc <= 1)%Q.

(** Every probability the model reports lies in the unit interval. *)
Definition proba_in_unit (mdl : PyObj) : Prop :=
  forall pp x out,
    predict_proba mdl = Some pp -> pp x = inr out ->
    Forall (Forall (fun p => (0 <= p <= 1)%Q)) out.

(** The scaler file that goes with a model file. *)
Definition scaler_path_of (model_path : string) : string :=
  str_replace "_model.joblib" "_scaler.joblib" model_path.

(** A candidate the loop passes over: its model file is absent or does not
    deserialize, or its scaler file exists and does not deserialize. *)
Definition candidate_fails (fs : gmap string File) (c : string * string) : Prop :=
  match fs !! snd c with
  | None => True
  | Some f =>
      match unpickle f with
      | inl _ => True
      | inr _ =>
          match fs !! scaler_path_of (snd c) with
          | None => False
          | Some fsc =>
              match unpickle fsc with
              | inl _ => True
              | inr _ => False
              end
          end
      end
  end.

(** A world that differs from [w] by lines printed after those of [w]. *)
Definition printed_after (w w' : World) : Prop :=
  exists out, w' = set_console (console w ++ out) w.

(** The rows of the file at [p], none when the file is absent. *)
Definition log_rows (w : World) (p : string) : list row :=
  match files w !! p with
  | Some f => rows f
  | None => []
  end.

(** The flag after a script, from the flag before it. *)
Definition final_flag (ops : list MonitorOp) (b : bool) : bool :=
  fold_left (fun b op =>
               match op with
               | OpStart => true
               | OpStop => false
               | OpTick => b
               end) ops b.

(** The number of ticks of a script. *)
Fixpoint ticks_of (ops : list MonitorOp) : nat :=
  match ops with
  | [] => 0
  | OpTick :: rest => S (ticks_of rest)
  | _ :: rest => ticks_of rest
  end.

(** A world that differs from [w] by lines printed and draws taken from
    [numpy.random] only. *)
Definition reads_only (w w' : World) : Prop :=
  files w' = files w
  /\ readonly w' = readonly w
  /\ gauss_pos w' = gauss_pos w
  /\ clock_pos w' = clock_pos w
  /\ (exists lines, console w' = console w ++ lines)%list.

(** Between two worlds, the file at [p] has kept its rows or gained one
    row of 11 cells at the end, what [joblib.load] reads from it is the
    same, no other file has changed, and no path has become writable or
    read-only. *)
Definition appends_at_most_one_row (p : string) (w w' : World) : Prop :=
  (forall q, q <> p -> files w' !! q = files w !! q)
  /\ (log_rows w' p = log_rows w p
      \/ exists r, length r = 11 /\ log_rows w' p = (log_rows w p ++ [r])%list)
  /\ (forall f, files w !! p = Some f ->
                exists f', files w' !! p = Some f' /\ unpickle f' = unpickle f)
  /\ readonly w' = readonly w.

(** The test of the loop of the bot simulator, [j] passes after the state
    [s] in which the loop is entered with [start_time]: the clock read at
    that test is short of the duration, and the flag, read after it, has not
    been cleared. *)
Definition test_passes (s : CloudBotSimulator.BotState) (start_time : Q)
    (j : nat) : bool :=
  Qgt_bool (float_of (CloudBotSimulator.duration_sec (CloudBotSimulator.sim s)))
    (CloudBotSimulator.wall s (j + CloudBotSimulator.wall_pos s) - start_time)
  && negb (CloudBotSimulator.cleared s (S (j + CloudBotSimulator.wall_pos s))).

(** The state in which [run] enters its loop: the flag is set, the start
    time has been read and the first line printed. *)
Definition entered (fmt : Formatter) (s : CloudBotSimulator.BotState)
    : CloudBotSimulator.BotState :=
  {| CloudBotSimulator.sim :=
       {| CloudBotSimulator.duration_sec :=
            CloudBotSimulator.duration_sec (CloudBotSimulator.sim s);
          CloudBotSimulator.step_interval :=
            CloudBotSimulator.step_interval (CloudBotSimulator.sim s);
          CloudBotSimulator.is_running := true |};
     CloudBotSimulator.out :=
       CloudBotSimulator.out s
       ++ [mark_bot ++ " Starting bot simulation for "
           ++ str_num fmt
                (CloudBotSimulator.duration_sec (CloudBotSimulator.sim s))
           ++ " seconds..."];
     CloudBotSimulator.wall := CloudBotSimulator.wall s;
     CloudBotSimulator.wall_pos := S (CloudBotSimulator.wall_pos s);
     CloudBotSimulator.naps := CloudBotSimulator.naps s;
     CloudBotSimulator.cleared := CloudBotSimulator.cleared s |}.

(** Every attribute of [m'] other than the running flag is that of [m]. *)
Definition same_but_flag (m m' : Monitor) : Prop :=
  model_name m' = model_name m
  /\ model m' = model m
  /\ scaler m' = scaler m
  /\ ae_meta m' = ae_meta m
  /\ window_seconds m' = window_seconds m
  /\ detection_interval m' = detection_interval m
  /\ detection_thread m' = detection_thread m
  /\ log_file m' = log_file m
  /\ base_features m' = base_features m
  /\ feature_variance m' = feature_variance m.

(** The world [w'] is [w] with [lines] printed after the lines of [w]:
    every file, permission, random source, clock and library is the same. *)
Definition printed_only (lines : list string) (w w' : World) : Prop :=
  files w' = files w
  /\ readonly w' = readonly w
  /\ console w' = (console w ++ lines)%list
  /\ gauss_draws w' = gauss_draws w
  /\ gauss_pos w' = gauss_pos w
  /\ clock w' = clock w
  /\ clock_pos w' = clock_pos w
  /\ np_stream w' = np_stream w
  /\ np_pos w' = np_pos w
  /\ joblib_available w' = joblib_available w
  /\ sklearn w' = sklearn w.

(** The value [v] is the float [x] clamped at zero: [x] itself when [x] is
    positive, and the integer [0] otherwise. *)
Definition clamped (x : Q) (v : Num) : Prop :=
  ((0 < x)%Q -> v = NFloat x) /\ ((x <= 0)%Q -> v = NInt 0).

(** The row [r] holds, cell by cell and in this order, the values the
    record [d] has under the keys [names]. *)
Definition row_under (names : list string) (d : dict Value) (r : row) : Prop :=
  Forall2 (fun k c => dict_lookup k d = Some c) names r.

(** * Properties *)

(** ** Records and the monad *)

Lemma set_is_running_same (m : Monitor) : set_is_running (is_running m) m = m.
Proof. by destruct m. Qed.

Lemma set_is_running_twice (a b : bool) (m : Monitor) :
  set_is_running a (set_is_running b m) = set_is_running a m.
Proof. by destruct m. Qed.

Lemma bind_inr {S A B} (c : M S A) (k : A -> M S B) s a s' :
  c s = (inr a, s') -> bind c k s = k a s'.
Proof. intros H. unfold bind. by rewrite H. Qed.

Lemma bind_inl {S A B} (c : M S A) (k : A -> M S B) s e s' :
  c s = (inl e, s') -> bind c k s = (inl e, s').
Proof. intros H. unfold bind. by rewrite H. Qed.

Lemma ctx_eta (s : Ctx) : {| self := self s; world := world s |} = s.
Proof. by destruct s. Qed.

(** ** start and stop *)

(** C9: [start] returns with the running flag [True] and [stop] with the
    flag [False]. Each prints its one notice and changes nothing else:
    every other attribute of the monitor ([detection_thread] among them,
    so nothing is scheduled) and every file, permission, random source and
    clock of the world are as before, so no record is written. After
    [start] then [stop] the flag is [False], the console has gained the
    two notices in that order, and everything else is as at the
    beginning. *)
Theorem start_stop_toggle_flag_only (s : Ctx) :
  let started := "Started cloud simulation monitor with model: "
                 ++ model_name (self s) in
  let stopped := "Stopped cloud simulation monitor" in
  (exists s1,
     start s = (inr tt, s1)
     /\ is_running (self s1) = true
     /\ same_but_flag (self s) (self s1)
     /\ printed_only [started] (world s) (world s1))
  /\ (exists s1,
        stop s = (inr tt, s1)
        /\ is_running (self s1) = false
        /\ same_but_flag (self s) (self s1)
        /\ printed_only [stopped] (world s) (world s1))
  /\ (exists s2,
        (do! start in stop) s = (inr tt, s2)
        /\ is_running (self s2) = false
        /\ same_but_flag (self s) (self s2)
        /\ printed_only [started; stopped] (world s) (world s2)).
Proof.
  cbn zeta. split; [| split].
  - eexists. split; [reflexivity |]. split; [reflexivity |].
    split; repeat split; reflexivity.
  - eexists. split; [reflexivity |]. split; [reflexivity |].
    split; repeat split; reflexivity.
  - eexists. split; [reflexivity |]. split; [reflexivity |].
    split; [repeat split; reflexivity |].
    unfold printed_only. cbn. rewrite <- app_assoc.
    repeat split; reflexivity.
Qed.

(** ** The running flag is a frame of every other method *)

Lemma flag_blind_ret {A} (a : A) : flag_blind (ret a).
Proof. intros b m w. split; reflexivity. Qed.

Lemma flag_blind_lift_result {A} (r : result A) : flag_blind (lift_result r).
Proof. intros b m w. split; reflexivity. Qed.

Lemma flag_blind_liftW {A} (c : M World A) : flag_blind (liftW c).
Proof.
  intros b m w. unfold liftW. cbn. destruct (c w) as [r w']. split; reflexivity.
Qed.

Lemma flag_blind_bind {A B} (c : M Ctx A) (k : A -> M Ctx B) :
  flag_blind c -> (forall a, flag_blind (k a)) -> flag_blind (bind c k).
Proof.
  intros Hc Hk b m w. destruct (Hc b m w) as [Hs Hb].
  unfold bind. rewrite Hb.
  destruct (c {| self := m; world := w |}) as [[e | a] [m' w']];
    cbn in *; subst m'.
  - split; reflexivity.
  - destruct (Hk a b m w') as [Hs' Hb']. rewrite Hb'. split; [exact Hs' | reflexivity].
Qed.

Lemma flag_blind_try_except {A} (c : M Ctx A) (h : exn -> M Ctx A) :
  flag_blind c -> (forall e, flag_blind (h e)) -> flag_blind (try_except c h).
Proof.
  intros Hc Hh b m w. destruct (Hc b m w) as [Hs Hb].
  unfold try_except. rewrite Hb.
  destruct (c {| self := m; world := w |}) as [[e | a] [m' w']];
    cbn in *; subst m'.
  - destruct (Hh e b m w') as [Hs' Hb']. rewrite Hb'. split; [exact Hs' | reflexivity].
  - split; reflexivity.
Qed.

(** Reading an attribute other than the flag. *)
Lemma flag_blind_get_self {A} (f : Monitor -> A) :
  (forall b m, f (set_is_running b m) = f m) -> flag_blind (get_self f).
Proof.
  intros Hf b m w. unfold get_self, gets. cbn. rewrite Hf. split; reflexivity.
Qed.

Ltac blind_step :=
  first
    [ apply flag_blind_bind; [| intros ?]
    | apply flag_blind_try_except; [| intros ?]
    | apply flag_blind_get_self; intros ? ?; reflexivity
    | apply flag_blind_ret
    | apply flag_blind_lift_result
    | apply flag_blind_liftW ].

Lemma flag_blind_generate_loop items features :
  flag_blind (generate_loop items features).
Proof.
  revert features.
  induction items as [| [feature base_value] rest IH]; intros features; cbn.
  - apply flag_blind_ret.
  - repeat blind_step. apply IH.
Qed.

Lemma flag_blind_generate : flag_blind _generate_simulated_features.
Proof.
  unfold _generate_simulated_features. blind_step; [blind_step |].
  apply flag_blind_generate_loop.
Qed.

Lemma flag_blind_predict features : flag_blind (_predict_with_model features).
Proof. unfold _predict_with_model, predict_body. repeat blind_step. Qed.

Lemma flag_blind_log detection : flag_blind (_log_detection detection).
Proof. unfold _log_detection, log_body. repeat blind_step. Qed.

Lemma flag_blind_run_detection_once : flag_blind run_detection_once.
Proof.
  unfold run_detection_once, detection_body.
  blind_step; [| repeat blind_step].
  blind_step; [apply flag_blind_generate |].
  blind_step; [apply flag_blind_predict |].
  blind_step; [blind_step |].
  blind_step; [blind_step |].
  blind_step; [blind_step |].
  blind_step; [blind_step |].
  blind_step; [apply flag_blind_log | blind_step].
Qed.


(** ** The feature simulator *)

#[local] Arguments Qplus : simpl never.
#[local] Arguments Qmult : simpl never.
#[local] Arguments Qle_bool : simpl never.

Lemma Qgt_bool_iff (a b : Q) : Qgt_bool a b = true <-> (b < a)%Q.
Proof.
  unfold Qgt_bool. rewrite negb_true_iff, <- not_true_iff_false, Qle_bool_iff.
  split; [apply Qnot_le_lt | apply Qlt_not_le].
Qed.

Lemma py_max0_nonneg (x : Q) : (0 <= float_of (py_max0 x))%Q.
Proof.
  unfold py_max0. destruct (Qgt_bool x 0) eqn:Hx; cbn.
  - apply Qlt_le_weak, Qgt_bool_iff, Hx.
  - apply Qle_refl.
Qed.

Lemma dict_set_nonneg k v (features : dict Num) :
  (0 <= float_of v)%Q -> all_nonneg features ->
  all_nonneg (dict_set k v features).
Proof.
  intros Hv. induction 1 as [| [k' v'] d Hk Hd IH]; cbn.
  - repeat constructor. exact Hv.
  - destruct (String.eqb k k'); constructor; auto.
Qed.

(** Whatever the simulation parameters are, the loop only stores clamped
    values. *)
Lemma generate_loop_nonneg items features s fs s' :
  all_nonneg features ->
  generate_loop items features s = (inr fs, s') ->
  all_nonneg fs.
Proof.
  revert features s.
  induction items as [| [feature base_value] rest IH]; intros features s Hf; cbn.
  - intros [= <- <-]. exact Hf.
  - unfold bind, get_self, gets, lift_result, liftW, random_gauss. cbn.
    destruct (dict_get feature (feature_variance (self s))) as [e | variance];
      [discriminate |].
    apply IH, dict_set_nonneg; [apply py_max0_nonneg | exact Hf].
Qed.

Lemma generate_constructed (s : Ctx) :
  simulation_intact (self s) ->
  _generate_simulated_features s
  = (inr (drawn_features (world s)),
     {| self := self s;
        world := set_gauss_pos (6 + gauss_pos (world s)) (world s) |}).
Proof.
  intros [Hb Hv].
  unfold _generate_simulated_features, bind, get_self, gets. cbn.
  rewrite Hb. cbn.
  unfold bind, get_self, gets, lift_result, liftW, random_gauss. cbn.
  rewrite Hv. cbn. reflexivity.
Qed.

Lemma drawn_features_nonneg (w : World) : all_nonneg (drawn_features w).
Proof. repeat constructor; apply py_max0_nonneg. Qed.

Lemma py_max0_clamped (x : Q) : clamped x (py_max0 x).
Proof.
  unfold clamped, py_max0. destruct (Qgt_bool x 0) eqn:Hx.
  - apply Qgt_bool_iff in Hx. split; [reflexivity |].
    intros Hle. by apply Qlt_not_le in Hx.
  - split; [| reflexivity].
    intros Hlt. apply Qgt_bool_iff in Hlt. congruence.
Qed.

(** C6: on a monitor with the simulation parameters [__init__] sets,
    [_generate_simulated_features] returns, without raising, the six
    named fields in the order of [base_features]. The field of a metric
    is the draw [base + gauss(0, sigma)], for the baseline and the standard
    deviation of that metric and the next normal deviate [z] of the random
    source ([gauss(0, sigma)] is [0 + z * sigma]), clamped at zero: the
    draw itself when it is positive, and [0] when it is not. Every field
    value is at least zero; six deviates are consumed and neither the
    monitor nor any file changes. *)
Theorem simulated_features_nonneg (s : Ctx) :
  base_features (self s) = init_base_features ->
  feature_variance (self s) = init_feature_variance ->
  let z i := gauss_draws (world s) (i + gauss_pos (world s)) in
  exists v0 v1 v2 v3 v4 v5 s',
    _generate_simulated_features s
    = (inr [("avg_mouse_speed", v0); ("avg_typing_speed", v1);
            ("tab_switch_rate", v2); ("mouse_click_rate", v3);
            ("keyboard_error_rate", v4); ("active_window_duration", v5)],
       s')
    /\ clamped (150.0 + (0 + z 0%nat * 50.0))%Q v0
    /\ clamped (200.0 + (0 + z 1%nat * 80.0))%Q v1
    /\ clamped (0.5 + (0 + z 2%nat * 0.2))%Q v2
    /\ clamped (2.0 + (0 + z 3%nat * 1.0))%Q v3
    /\ clamped (0.05 + (0 + z 4%nat * 0.03))%Q v4
    /\ clamped (10.0 + (0 + z 5%nat * 5.0))%Q v5
    /\ Forall (fun v => (0 <= float_of v)%Q) [v0; v1; v2; v3; v4; v5]
    /\ self s' = self s
    /\ gauss_pos (world s') = 6 + gauss_pos (world s)
    /\ files (world s') = files (world s).
Proof.
  intros Hb Hv z.
  do 6 eexists. eexists. split.
  { apply generate_constructed. split; assumption. }
  do 6 (split; [apply py_max0_clamped |]).
  split; [repeat constructor; apply py_max0_nonneg |].
  repeat split; reflexivity.
Qed.

Lemma simulated_features_nonneg_witness :
  exists v0 v1 v2 v3 v4 v5 s',
    _generate_simulated_features (Examples.ctx_of (Examples.label_model 1))
    = (inr [("avg_mouse_speed", v0); ("avg_typing_speed", v1);
            ("tab_switch_rate", v2); ("mouse_click_rate", v3);
            ("keyboard_error_rate", v4); ("active_window_duration", v5)],
       s')
    /\ clamped (150.0 + (0 + 0 * 50.0))%Q v0
    /\ Forall (fun v => (0 <= float_of v)%Q) [v0; v1; v2; v3; v4; v5].
Proof.
  destruct (simulated_features_nonneg (Examples.ctx_of (Examples.label_model 1)))
    as (v0 & v1 & v2 & v3 & v4 & v5 & s' & Hrun & H0 & _ & _ & _ & _ & _ & Hnn & _).
  - reflexivity.
  - reflexivity.
  - exists v0, v1, v2, v3, v4, v5, s'. split; [exact Hrun |].
    split; [exact H0 | exact Hnn].
Defined.

(** ** The inference step *)

Lemma predict_body_eq features s :
  predict_body features s
  = (match score_for (self s) features with
     | inl e => inl e
     | inr sc => inr (prediction_of sc)
     end, s).
Proof.
  unfold predict_body, score_for, bind, lift_result, get_self, gets, ret.
  destruct (build_feature_array features) as [e | a]; [reflexivity |].
  destruct (apply_scaler (scaler (self s)) a) as [e | a']; [reflexivity |].
  destruct (model_score (model (self s)) a') as [e | sc]; reflexivity.
Qed.

(** The inference step never raises: it returns the dictionary of the
    score computed, or prints and returns the default. *)
Lemma predict_with_model_eq features s :
  _predict_with_model features s
  = match score_for (self s) features with
    | inr sc => (inr (prediction_of sc), s)
    | inl e =>
        (inr default_prediction,
         {| self := self s;
            world := say ("Prediction error: " ++ exn_msg e) (world s) |})
    end.
Proof.
  unfold _predict_with_model, try_except. rewrite predict_body_eq.
  destruct (score_for (self s) features); reflexivity.
Qed.

Lemma default_prediction_of : default_prediction = prediction_of 0.1.
Proof. reflexivity. Qed.

Lemma predict_with_model_total features s :
  exists w',
    _predict_with_model features s
    = (inr (prediction_of (score_or_default (self s) features)),
       {| self := self s; world := w' |})
    /\ files w' = files (world s) /\ readonly w' = readonly (world s)
    /\ clock w' = clock (world s) /\ clock_pos w' = clock_pos (world s).
Proof.
  rewrite predict_with_model_eq. unfold score_or_default.
  destruct (score_for (self s) features) as [e | sc].
  - eexists. split; [reflexivity |]. repeat split; reflexivity.
  - exists (world s). rewrite ctx_eta. repeat split; reflexivity.
Qed.

Lemma improper_of_iff (sc : Q) : improper_of sc = 1%Z <-> (0.5 < sc)%Q.
Proof.
  unfold improper_of. rewrite <- Qgt_bool_iff.
  destruct (Qgt_bool sc 0.5); split; congruence.
Qed.

Lemma improper_of_binary (sc : Q) : improper_of sc = 0%Z \/ improper_of sc = 1%Z.
Proof. unfold improper_of. destruct (Qgt_bool sc 0.5); auto. Qed.

(** C2: for a model without [predict_proba] whose [predict] returns a
    label for the (scaled) feature array, [_predict_with_model] returns
    score [0.8], [is_improper = 1] and [Robot] when the label is [-1], and
    score [0.2], [is_improper = 0] and [Person] for any other label; the
    state is unchanged. *)
Theorem label_only_scores (features : dict Num) (s : Ctx)
    (a a' : array2) (pr : array2 -> result (list Z)) (lbl : Z) (rest : list Z) :
  build_feature_array features = inr a ->
  apply_scaler (scaler (self s)) a = inr a' ->
  predict_proba (model (self s)) = None ->
  predict (model (self s)) = Some pr ->
  pr a' = inr (lbl :: rest) ->
  (lbl = (-1)%Z ->
   _predict_with_model features s
   = (inr [("score", VNum (NFloat 0.8)); ("is_improper", VNum (NInt 1));
           ("prediction", VStr "Robot")], s))
  /\ (lbl <> (-1)%Z ->
      _predict_with_model features s
      = (inr [("score", VNum (NFloat 0.2)); ("is_improper", VNum (NInt 0));
              ("prediction", VStr "Person")], s)).
Proof.
  intros Ha Hs Hpp Hp Hout.
  assert (Hsc : score_for (self s) features
                = inr (if (lbl =? -1)%Z then 0.8 else 0.2)%Q).
  { unfold score_for. rewrite Ha, Hs.
    unfold model_score, label_score. rewrite Hpp, Hp. cbn. rewrite Hout.
    reflexivity. }
  rewrite predict_with_model_eq, Hsc. split; intros Hl.
  - subst lbl. reflexivity.
  - apply Z.eqb_neq in Hl. rewrite Hl. reflexivity.
Qed.

Lemma label_only_scores_witness :
  _predict_with_model
    [("avg_mouse_speed", NFloat 150.0); ("avg_typing_speed", NFloat 200.0);
     ("tab_switch_rate", NInt 0); ("mouse_click_rate", NFloat 2.0);
     ("keyboard_error_rate", NFloat 0.05);
     ("active_window_duration", NFloat 10.0)]
    (Examples.ctx_of (Examples.label_model (-1)))
  = (inr [("score", VNum (NFloat 0.8)); ("is_improper", VNum (NInt 1));
          ("prediction", VStr "Robot")],
     Examples.ctx_of (Examples.label_model (-1))).
Proof.
  eapply (label_only_scores _ (Examples.ctx_of (Examples.label_model (-1))));
    reflexivity.
Defined.

(** The two cases of the probability branch and the scaler, on the six
    baseline values. *)
Example single_probability_is_the_score :
  fst (_predict_with_model (drawn_features Examples.empty_world)
         (Examples.ctx_of (Examples.single_proba_model 0.7)))
  = inr [("score", VNum (NFloat 0.7)); ("is_improper", VNum (NInt 1));
         ("prediction", VStr "Robot")].
Proof. reflexivity. Qed.

Example low_probability_is_person :
  fst (_predict_with_model (drawn_features Examples.empty_world)
         (Examples.ctx_of (Examples.proba_model 0.1)))
  = inr [("score", VNum (NFloat 0.1)); ("is_improper", VNum (NInt 0));
         ("prediction", VStr "Person")].
Proof. reflexivity. Qed.

Example scaler_runs_before_the_model :
  let m := Examples.monitor_of "demo" Examples.first_feature_model in
  let scaled :=
    {| model_name := model_name m; model := model m;
       scaler := Some Examples.halving_scaler; ae_meta := ae_meta m;
       window_seconds := window_seconds m;
       detection_interval := detection_interval m;
       is_running := is_running m; detection_thread := detection_thread m;
       log_file := log_file m; base_features := base_features m;
       feature_variance := feature_variance m |} in
  (score_for m (drawn_features Examples.empty_world) = inr (150.00 / 300)%Q)
  /\ (score_for scaled (drawn_features Examples.empty_world)
      = inr (150.00 / 2 / 300)%Q).
Proof. split; reflexivity. Qed.

(** C7: for a model with [predict_proba] that returns a row of
    probabilities for the (scaled) feature array, the score is the entry
    at index 1 when the row has at least two entries and the single entry
    when it has exactly one, with [is_improper] and the label derived from
    that score. Nothing is assumed of [predict]: the probability branch is
    taken whether or not the model also has labels. *)
Theorem proba_path_preferred (features : dict Num) (s : Ctx)
    (a a' : array2) (pp : array2 -> result array2)
    (pred_proba : list Q) (rest : array2) :
  build_feature_array features = inr a ->
  apply_scaler (scaler (self s)) a = inr a' ->
  predict_proba (model (self s)) = Some pp ->
  pp a' = inr (pred_proba :: rest) ->
  (forall p0 p1 tl, pred_proba = p0 :: p1 :: tl ->
     _predict_with_model features s
     = (inr [("score", VNum (NFloat p1));
             ("is_improper", VNum (NInt (improper_of p1)));
             ("prediction",
              VStr (if (improper_of p1 =? 0)%Z then "Person" else "Robot"))],
        s))
  /\ (forall p, pred_proba = [p] ->
       _predict_with_model features s
       = (inr [("score", VNum (NFloat p));
               ("is_improper", VNum (NInt (improper_of p)));
               ("prediction",
                VStr (if (improper_of p =? 0)%Z then "Person" else "Robot"))],
          s)).
Proof.
  intros Ha Hs Hpp Hout.
  assert (Hsc : score_for (self s) features
                = if (1 <? length pred_proba)%nat
                  then index 1 pred_proba else index 0 pred_proba).
  { unfold score_for. rewrite Ha, Hs.
    unfold model_score, proba_score. rewrite Hpp, Hout. reflexivity. }
  rewrite predict_with_model_eq, Hsc.
  split; [intros p0 p1 tl -> | intros p ->]; reflexivity.
Qed.

Lemma proba_path_preferred_witness :
  _predict_with_model (drawn_features Examples.empty_world)
    (Examples.ctx_of (Examples.proba_model 0.9))
  = (inr [("score", VNum (NFloat 0.9)); ("is_improper", VNum (NInt 1));
          ("prediction", VStr "Robot")],
     Examples.ctx_of (Examples.proba_model 0.9)).
Proof.
  refine (proj1 (proba_path_preferred _
                   (Examples.ctx_of (Examples.proba_model 0.9))
                   _ _ _ _ _ _ _ _ _) _ _ _ _);
    reflexivity.
Defined.

(** ** One tick *)

(** The logging step never raises and leaves [self] alone. *)
Lemma log_detection_eq detection s :
  _log_detection detection s
  = match log_body detection s with
    | (inr u, s1) => (inr u, s1)
    | (inl e, s1) =>
        (inr tt,
         {| self := self s1;
            world := say ("Logging error: " ++ exn_msg e) (world s1) |})
    end.
Proof.
  unfold _log_detection, try_except.
  destruct (log_body detection s) as [[e | u] s1]; reflexivity.
Qed.

Lemma log_body_self detection s : self (snd (log_body detection s)) = self s.
Proof.
  unfold log_body, bind, get_self, gets, liftW, lift_result.
  destruct (detection_row columns detection) as [e | r]; cbn;
    destruct (open_a (log_file (self s)) (world s)) as [[e' | u] w1];
    reflexivity.
Qed.

Lemma log_detection_total detection s :
  exists w', _log_detection detection s = (inr tt, {| self := self s; world := w' |}).
Proof.
  rewrite log_detection_eq. pose proof (log_body_self detection s) as Hs.
  destruct (log_body detection s) as [[e | []] [m1 w1]]; cbn in Hs; subst m1;
    eexists; reflexivity.
Qed.

(** What a tick does once the features are there: it returns the record,
    whatever the inference and logging steps did; no exception. *)
Lemma detection_after_features s features s1 :
  _generate_simulated_features s = (inr features, s1) ->
  run_detection_once s
  = (inr (Some (record_of features s1)),
     snd (_log_detection (record_of features s1) (before_log features s1))).
Proof.
  intros Hgen.
  unfold run_detection_once, try_except, detection_body, before_log, record_of.
  unfold bind at 1. rewrite Hgen.
  destruct (predict_with_model_total features s1)
    as (w2 & Hp & _ & _ & Hc & Hcp).
  unfold bind at 1. rewrite Hp.
  unfold bind, liftW, datetime_now_isoformat, get_self, gets, lift_result, ret.
  cbn. rewrite Hc, Hcp.
  match goal with
  | |- context [_log_detection ?d ?s2] =>
      destruct (log_detection_total d s2) as [w3 Hl]; rewrite Hl
  end.
  reflexivity.
Qed.

Lemma before_log_self features s1 : self (before_log features s1) = self s1.
Proof.
  unfold before_log.
  destruct (predict_with_model_total features s1) as (w2 & Hp & _).
  rewrite Hp. reflexivity.
Qed.

Lemma index_Forall {A} (P : A -> Prop) i (xs : list A) x :
  Forall P xs -> index i xs = inr x -> P x.
Proof.
  unfold index. intros HP. destruct (nth_error xs i) as [y |] eqn:Hn; [| discriminate].
  intros [= <-]. rewrite Forall_forall in HP. apply HP.
  apply list_elem_of_In. eapply nth_error_In, Hn.
Qed.

Lemma score_or_default_in_unit m features :
  proba_in_unit (model m) -> (0 <= score_or_default m features <= 1)%Q.
Proof.
  intros Hm. unfold score_or_default.
  destruct (score_for m features) as [e | sc] eqn:Hsc; [by compute |].
  unfold score_for in Hsc.
  destruct (build_feature_array features) as [e | a]; [discriminate |].
  destruct (apply_scaler (scaler m) a) as [e | a']; [discriminate |].
  unfold model_score in Hsc.
  destruct (predict_proba (model m)) as [pp |] eqn:Hpp.
  - unfold proba_score in Hsc.
    destruct (pp a') as [e | out] eqn:Hout; [discriminate |].
    specialize (Hm pp a' out Hpp Hout).
    destruct (index 0 out) as [e | row] eqn:Hrow; [discriminate |].
    pose proof (index_Forall _ _ _ _ Hm Hrow) as Hr.
    revert Hsc. destruct (1 <? length row)%nat; intros Hsc;
      exact (index_Forall _ _ _ _ Hr Hsc).
  - unfold label_score in Hsc.
    destruct (getattr "predict" (predict (model m))) as [e | pr]; [discriminate |].
    destruct (pr a') as [e | out]; [discriminate |].
    destruct (index 0 out) as [e | pred]; [discriminate |].
    injection Hsc as <-. destruct (pred =? -1)%Z; by compute.
Qed.

Lemma record_of_lookup_constructed (w : World) (s1 : Ctx) :
  dict_lookup "score" (record_of (drawn_features w) s1)
  = Some (VNum (NFloat (score_or_default (self s1) (drawn_features w))))
  /\ dict_lookup "is_improper" (record_of (drawn_features w) s1)
     = Some (VNum (NInt (improper_of
                           (score_or_default (self s1) (drawn_features w))))).
Proof. split; reflexivity. Qed.

(** The dictionary of the inference step carries a score and a flag that
    agree, for every model, scaler and feature dictionary. *)
Lemma prediction_flag_agrees features s :
  exists pr s',
    _predict_with_model features s = (inr pr, s')
    /\ flag_agrees pr
    /\ (proba_in_unit (model (self s)) -> score_in_unit pr).
Proof.
  destruct (predict_with_model_total features s) as (w' & Hp & _).
  eexists _, _. split; [exact Hp |]. split.
  - exists (score_or_default (self s) features), (improper_of (score_or_default (self s) features)).
    split; [reflexivity |]. split; [reflexivity |].
    split; [apply improper_of_binary | apply improper_of_iff].
  - intros Hm. eexists. split; [reflexivity |].
    by apply score_or_default_in_unit.
Qed.

(** C1, as amended: on a monitor with the simulation parameters [__init__]
    sets, every call of [run_detection_once] returns a record, and in that
    record [is_improper] is [0] or [1] and is [1] exactly when the score
    exceeds [0.5]; this holds for every model and scaler and also when
    the inference step raised (score [0.1], flag [0]). The score lies in
    the unit interval whenever every probability the model reports does;
    nothing in the code clamps what [predict_proba] returns. The same
    holds of the dictionary [_predict_with_model] returns, for every
    feature dictionary. *)
Theorem detection_score_invariant (s : Ctx) :
  simulation_intact (self s) ->
  (exists d s',
     run_detection_once s = (inr (Some d), s')
     /\ flag_agrees d
     /\ (proba_in_unit (model (self s)) -> score_in_unit d))
  /\ (forall features,
        exists pr s',
          _predict_with_model features s = (inr pr, s')
          /\ flag_agrees pr
          /\ (proba_in_unit (model (self s)) -> score_in_unit pr)).
Proof.
  intros Hsim. split; [| intros features; apply prediction_flag_agrees].
  pose proof (detection_after_features _ _ _ (generate_constructed s Hsim)) as Hrun.
  eexists _, _. split; [exact Hrun |].
  destruct (record_of_lookup_constructed (world s)
              {| self := self s;
                 world := set_gauss_pos (6 + gauss_pos (world s)) (world s) |})
    as [Hsc Hfl].
  split.
  - eexists _, _. split; [exact Hsc |]. split; [exact Hfl |].
    split; [apply improper_of_binary | apply improper_of_iff].
  - intros Hm. eexists. split; [exact Hsc |].
    by apply score_or_default_in_unit.
Qed.

Lemma proba_model_in_unit : proba_in_unit (Examples.proba_model 0.9).
Proof.
  intros pp x out [= <-] [= <-].
  repeat constructor; by compute.
Qed.

Lemma detection_score_invariant_witness :
  exists d s',
    run_detection_once (Examples.ctx_of (Examples.proba_model 0.9))
    = (inr (Some d), s')
    /\ flag_agrees d /\ score_in_unit d.
Proof.
  destruct (detection_score_invariant
              (Examples.ctx_of (Examples.proba_model 0.9)))
    as [(d & s' & Hrun & Hflag & Hunit) _].
  - split; reflexivity.
  - exists d, s'. split; [exact Hrun |]. split; [exact Hflag |].
    apply Hunit, proba_model_in_unit.
Defined.

(** C1, as stated, fails: a model whose [predict_proba] reports [1.5] for
    the second class makes [run_detection_once] return a record whose
    score is [1.5], outside the unit interval. *)
Lemma overconfident_score_escapes_unit :
  simulation_intact (self (Examples.ctx_of Examples.overconfident_model))
  /\ exists d s',
       run_detection_once (Examples.ctx_of Examples.overconfident_model)
       = (inr (Some d), s')
       /\ dict_lookup "score" d = Some (VNum (NFloat 1.5))
       /\ ~ score_in_unit d.
Proof.
  split; [split; reflexivity |].
  eexists _, _. split; [vm_compute; reflexivity |].
  split; [reflexivity |].
  intros (sc & Hl & _ & H1). injection Hl as <-. by compute in H1.
Qed.

(** ** Errors inside a tick *)

Lemma run_detection_once_generation_error s e s1 :
  _generate_simulated_features s = (inl e, s1) ->
  run_detection_once s
  = (inr None,
     {| self := self s1;
        world := say ("Detection error: " ++ exn_msg e) (world s1) |}).
Proof.
  intros Hgen.
  unfold run_detection_once, try_except, detection_body.
  unfold bind at 1. rewrite Hgen. reflexivity.
Qed.



(** The record of a tick has the eleven columns and no other key; the
    label [prediction] of the inference step stays behind. *)
Example record_keys :
  exists d s',
    run_detection_once (Examples.ctx_of (Examples.proba_model 0.9))
    = (inr (Some d), s')
    /\ map fst d = columns
    /\ dict_lookup "prediction" d = None.
Proof.
  eexists _, _. split; [vm_compute; reflexivity |]. split; reflexivity.
Qed.

(** A monitor whose log file cannot be opened: the logging step raises,
    the error is printed, no file appears, and the record is returned. *)
Example logging_error_returns_record :
  let s := {| self := Examples.monitor_of "demo" (Examples.proba_model 0.1);
              world := Examples.world_with ∅ {[ "detections_log.csv" ]} |} in
  exists d s',
    run_detection_once s = (inr (Some d), s')
    /\ dict_lookup "score" d = Some (VNum (NFloat 0.1))
    /\ dict_lookup "is_improper" d = Some (VNum (NInt 0))
    /\ console (world s')
       = ["Logging error: [Errno 13] Permission denied: 'detections_log.csv'"]
    /\ files (world s') !! "detections_log.csv" = None.
Proof.
  cbn zeta. eexists _, _.
  split; [vm_compute; reflexivity |].
  repeat split; reflexivity.
Qed.

(** A monitor whose [feature_variance] has lost its entries: feature
    generation raises [KeyError], the error is printed and the call
    returns [None]. *)
Example generation_error_returns_none :
  let s := {| self := set_simulation init_base_features []
                        (Examples.monitor_of "demo" (Examples.proba_model 0.1));
              world := Examples.empty_world |} in
  run_detection_once s
  = (inr None,
     {| self := self s;
        world := say "Detection error: 'avg_mouse_speed'" Examples.empty_world |}).
Proof. reflexivity. Qed.


(** ** The log file *)

Lemma headers_columns : headers = map VStr columns.
Proof. reflexivity. Qed.

Lemma open_a_existing p w f :
  files w !! p = Some f -> p ∉ readonly w -> open_a p w = (inr tt, w).
Proof.
  intros Hf Hro. unfold open_a.
  rewrite bool_decide_eq_false_2 by exact Hro. by rewrite Hf.
Qed.

Lemma open_a_readonly p w :
  p ∈ readonly w -> open_a p w = (inl (PermissionError p), w).
Proof.
  intros Hro. unfold open_a. by rewrite bool_decide_eq_true_2.
Qed.

(** The logging step on an existing, writable log file whose record has
    every column: exactly one row is added at the end. *)
Lemma log_detection_appends d s f r :
  files (world s) !! log_file (self s) = Some f ->
  log_file (self s) ∉ readonly (world s) ->
  detection_row columns d = inr r ->
  _log_detection d s
  = (inr tt,
     {| self := self s;
        world :=
          set_files
            (<[log_file (self s) :=
                 {| rows := rows f ++ [r]; unpickle := unpickle f |}]>
               (files (world s)))
            (world s) |}).
Proof.
  intros Hf Hro Hr.
  rewrite log_detection_eq.
  unfold log_body, bind, get_self, gets, liftW, lift_result.
  rewrite Hr. cbn.
  rewrite (open_a_existing _ _ _ Hf Hro). cbn.
  unfold writerow, modify. rewrite Hf. reflexivity.
Qed.

Lemma record_of_row (w : World) (s1 : Ctx) :
  exists r,
    detection_row columns (record_of (drawn_features w) s1) = inr r
    /\ length r = 11.
Proof. eexists. split; reflexivity. Qed.

Lemma before_log_world features s1 :
  files (world (before_log features s1)) = files (world s1)
  /\ readonly (world (before_log features s1)) = readonly (world s1).
Proof.
  unfold before_log.
  destruct (predict_with_model_total features s1) as (w2 & Hp & Hf & Hro & _).
  rewrite Hp. cbn. split; assumption.
Qed.

(** One tick of a monitor as [__init__] leaves it, on an existing and
    writable log file: a record is returned and its row, of 11 cells, is
    the one row added to the log. *)
Lemma tick_appends_one_row (s : Ctx) (f : File) :
  simulation_intact (self s) ->
  files (world s) !! log_file (self s) = Some f ->
  log_file (self s) ∉ readonly (world s) ->
  exists d r s',
    run_detection_once s = (inr (Some d), s')
    /\ detection_row columns d = inr r
    /\ length r = 11
    /\ self s' = self s
    /\ readonly (world s') = readonly (world s)
    /\ files (world s')
       = <[log_file (self s) :=
             {| rows := rows f ++ [r]; unpickle := unpickle f |}]>
           (files (world s)).
Proof.
  intros Hsim Hf Hro.
  pose proof (detection_after_features _ _ _ (generate_constructed s Hsim)) as Hrun.
  set (s1 := {| self := self s;
                world := set_gauss_pos (6 + gauss_pos (world s)) (world s) |}) in *.
  set (features := drawn_features (world s)) in *.
  destruct (record_of_row (world s) s1) as (r & Hr & Hlen).
  destruct (before_log_world features s1) as [Hfiles Hreadonly].
  pose proof (before_log_self features s1) as Hself.
  assert (Hlog := log_detection_appends (record_of features s1)
                    (before_log features s1) f r).
  rewrite Hself, Hfiles, Hreadonly in Hlog.
  specialize (Hlog Hf Hro Hr).
  exists (record_of features s1), r. eexists.
  split; [exact Hrun |]. rewrite Hlog. cbn.
  repeat split; try assumption.
Qed.

(** [n] ticks in a row add [n] rows, in the order of the calls. *)
Lemma run_ticks_append_rows (n : nat) :
  forall (s : Ctx) (f : File),
    simulation_intact (self s) ->
    files (world s) !! log_file (self s) = Some f ->
    log_file (self s) ∉ readonly (world s) ->
    exists ds rs s',
      run_ticks n s = (inr (map Some ds), s')
      /\ Forall2 (fun d r => detection_row columns d = inr r) ds rs
      /\ Forall (fun r => length r = 11) rs
      /\ length rs = n
      /\ self s' = self s
      /\ files (world s') !! log_file (self s)
         = Some {| rows := rows f ++ rs; unpickle := unpickle f |}.
Proof.
  induction n as [| n IH]; intros s f Hsim Hf Hro.
  - exists [], [], s. cbn. rewrite app_nil_r.
    repeat split; try constructor. rewrite Hf. by destruct f.
  - destruct (tick_appends_one_row s f Hsim Hf Hro)
      as (d & r & s1 & Hrun & Hr & Hlen & Hself & Hro1 & Hfiles).
    destruct (IH s1 {| rows := rows f ++ [r]; unpickle := unpickle f |})
      as (ds & rs & s' & Hticks & Hrows & Hlens & Hn & Hself' & Hlog).
    + by rewrite Hself.
    + rewrite Hself, Hfiles. apply lookup_insert_eq.
    + by rewrite Hself, Hro1.
    + exists (d :: ds), (r :: rs), s'.
      cbn [run_ticks]. unfold bind at 1. rewrite Hrun.
      unfold bind at 1. rewrite Hticks. cbn.
      rewrite Hself in Hlog. cbn in Hlog. rewrite <- app_assoc in Hlog.
      split; [reflexivity |].
      split; [by constructor |].
      split; [by constructor |].
      split; [cbn; by rewrite Hn |].
      split; [congruence | exact Hlog].
Qed.

(** [__init__] where the log file is absent and can be created: the file
    holds the header row and nothing else. *)
Lemma init_creates_log name mdl sc ae ws di (w : World) :
  files w !! "detections_log.csv" = None ->
  "detections_log.csv" ∉ readonly w ->
  exists m w1,
    __init__ name mdl sc ae ws di w = (inr m, w1)
    /\ simulation_intact m
    /\ log_file m = "detections_log.csv"
    /\ is_running m = false
    /\ readonly w1 = readonly w
    /\ files w1 !! "detections_log.csv"
       = Some {| rows := [headers]; unpickle := not_a_pickle |}.
Proof.
  intros Hf Hro.
  unfold __init__, _init_log_file, bind, get_self, gets, liftW, os_path_exists.
  cbn. rewrite Hf. cbn.
  unfold open_w. rewrite (bool_decide_eq_false_2 _ Hro). cbn.
  unfold writerow, modify. cbn. rewrite lookup_insert_eq. cbn.
  eexists _, _. split; [reflexivity |].
  repeat split. cbn. apply lookup_insert_eq.
Qed.

(** [__init__] where the log file exists: nothing is written. *)
Lemma init_keeps_log name mdl sc ae ws di (w : World) (f : File) :
  files w !! "detections_log.csv" = Some f ->
  exists m, __init__ name mdl sc ae ws di w = (inr m, w).
Proof.
  intros Hf.
  unfold __init__, _init_log_file, bind, get_self, gets, liftW, os_path_exists.
  cbn. rewrite Hf. cbn. eexists. reflexivity.
Qed.

Lemma dict_get_lookup {A} (k : string) (d : dict A) (v : A) :
  dict_get k d = inr v <-> dict_lookup k d = Some v.
Proof.
  unfold dict_get. destruct (dict_lookup k d); split; congruence.
Qed.

(** The row [_log_detection] evaluates holds the values of the record
    under the keys, in the order of the keys. *)
Lemma detection_row_under keys d r :
  detection_row keys d = inr r <-> row_under keys d r.
Proof.
  revert r. induction keys as [| k keys IH]; intros r; cbn.
  - split.
    + intros [= <-]. constructor.
    + intros H. by inversion H.
  - split.
    + destruct (dict_get k d) as [e | c] eqn:Hk; [discriminate |].
      destruct (detection_row keys d) as [e | r'] eqn:Hr; [discriminate |].
      intros [= <-]. constructor; [by apply dict_get_lookup | by apply IH].
    + intros H. inversion H as [| ? c ? r' Hk Hr]; subst.
      apply dict_get_lookup in Hk. rewrite Hk.
      apply IH in Hr. by rewrite Hr.
Qed.

(** C8: starting from a world in which the log file does not exist (and
    can be created), building the monitor and calling [run_detection_once]
    [n] times succeeds, each call returns a record, and afterwards the log
    file holds the header row followed by exactly [n] data rows, one per
    call in the order of the calls. The header row is the list of the 11
    column names [timestamp, user_id, model, score, is_improper,
    avg_mouse_speed, avg_typing_speed, tab_switch_rate, mouse_click_rate,
    keyboard_error_rate, active_window_duration]; the data row of a call
    has 11 cells, which are the values the record returned by that call
    has under these 11 names, in that order. The header is written only
    when the file is absent: building a monitor where the file exists
    leaves the world as it is. *)
Theorem log_has_header_and_one_row_per_tick
    name mdl sc ae ws di (w : World) (n : nat) :
  files w !! "detections_log.csv" = None ->
  "detections_log.csv" ∉ readonly w ->
  let names :=
    ["timestamp"; "user_id"; "model"; "score"; "is_improper";
     "avg_mouse_speed"; "avg_typing_speed"; "tab_switch_rate";
     "mouse_click_rate"; "keyboard_error_rate"; "active_window_duration"] in
  (exists m w1 ds rs s' f,
     __init__ name mdl sc ae ws di w = (inr m, w1)
     /\ run_ticks n {| self := m; world := w1 |} = (inr (map Some ds), s')
     /\ files (world s') !! "detections_log.csv" = Some f
     /\ rows f = map VStr names :: rs
     /\ length ds = n
     /\ length rs = n
     /\ length (rows f) = S n
     /\ Forall (fun r => length r = 11) (rows f)
     /\ Forall2 (fun d r => row_under names d r) ds rs)
  /\ (forall w2 f2,
        files w2 !! "detections_log.csv" = Some f2 ->
        exists m2, __init__ name mdl sc ae ws di w2 = (inr m2, w2)).
Proof.
  intros Hf Hro names. split; [| intros w2 f2; apply init_keeps_log].
  destruct (init_creates_log name mdl sc ae ws di w Hf Hro)
    as (m & w1 & Hinit & Hsim & Hp & _ & Hro1 & Hlog).
  destruct (run_ticks_append_rows n {| self := m; world := w1 |}
              {| rows := [headers]; unpickle := not_a_pickle |})
    as (ds & rs & s' & Hticks & Hrows & Hlens & Hn & _ & Hlog');
    cbn [self world]; rewrite ?Hp; try assumption.
  { by rewrite Hro1. }
  cbn [self] in Hlog'. rewrite Hp in Hlog'.
  eexists m, w1, ds, rs, s', _.
  split; [exact Hinit |]. split; [exact Hticks |]. split; [exact Hlog' |].
  split; [reflexivity |].
  split; [by rewrite (Forall2_length _ _ _ Hrows) |].
  split; [exact Hn |]. split; [cbn; by rewrite Hn |].
  split; [constructor; [reflexivity | assumption] |].
  eapply Forall2_impl; [exact Hrows |].
  intros d r Hr. by apply (detection_row_under columns).
Qed.

Lemma log_has_header_and_one_row_per_tick_witness :
  exists m w1 ds rs s' f,
    __init__ "RandomForest" (Examples.proba_model 0.9) None None 30.0 2.0
      Examples.empty_world = (inr m, w1)
    /\ run_ticks 3 {| self := m; world := w1 |} = (inr (map Some ds), s')
    /\ files (world s') !! "detections_log.csv" = Some f
    /\ rows f = headers :: rs
    /\ length rs = 3.
Proof.
  destruct (log_has_header_and_one_row_per_tick
              "RandomForest" (Examples.proba_model 0.9) None None 30.0 2.0
              Examples.empty_world 3)
    as [(m & w1 & ds & rs & s' & f & H1 & H2 & H3 & H4 & _ & H5 & _) _].
  - reflexivity.
  - vm_compute. set_solver.
  - exists m, w1, ds, rs, s', f. repeat split; assumption.
Defined.

(** ** The model loader *)

Lemma scaler_paths :
  map (fun c => scaler_path_of (snd c)) model_files
  = ["models/rf_scaler.joblib"; "models/xgb_scaler.joblib";
     "models/iso_scaler.joblib"].
Proof. reflexivity. Qed.

Lemma say_files s w : files (say s w) = files w.
Proof. reflexivity. Qed.

(** One iteration of the loop of the loader, by what the file system
    holds at the two paths. *)
Lemma load_loop_cons name path rest w :
  load_loop ((name, path) :: rest) w
  = match files w !! path with
    | None => load_loop rest w
    | Some f =>
        match unpickle f with
        | inl e =>
            load_loop rest
              (say ("Failed to load " ++ name ++ ": " ++ exn_msg e) w)
        | inr mdl =>
            let w1 :=
              say (mark_ok ++ " Loaded " ++ name ++ " model from " ++ path) w in
            match files w !! scaler_path_of path with
            | None => (inr (Some (name, mdl, None, None)), w1)
            | Some fs =>
                match unpickle fs with
                | inl e =>
                    load_loop rest
                      (say ("Failed to load " ++ name ++ ": " ++ exn_msg e) w1)
                | inr sc =>
                    (inr (Some (name, mdl, Some sc, None)),
                     say (mark_ok ++ " Loaded scaler from "
                          ++ scaler_path_of path) w1)
                end
            end
        end
    end.
Proof.
  cbn [load_loop].
  unfold bind, try_except, os_path_exists, gets, joblib_load, print, modify, ret.
  fold (scaler_path_of path). cbn beta.
  destruct (files w !! path) as [f |] eqn:Hf; cycle 1.
  { rewrite bool_decide_eq_false_2; [reflexivity |]. by intros [? ?]. }
  rewrite bool_decide_eq_true_2 by eauto.
  cbn beta iota. rewrite Hf.
  destruct (unpickle f) as [e | mdl]; [reflexivity |].
  cbn beta iota zeta. rewrite !say_files.
  destruct (files w !! scaler_path_of path) as [fs |] eqn:Hs; cycle 1.
  { rewrite bool_decide_eq_false_2; [reflexivity |]. by intros [? ?]. }
  rewrite bool_decide_eq_true_2 by eauto.
  cbn beta iota. rewrite ?say_files, ?Hs.
  destruct (unpickle fs) as [e | sc]; reflexivity.
Qed.

Lemma printed_after_refl w : printed_after w w.
Proof. exists []. rewrite app_nil_r. by destruct w. Qed.

Lemma printed_after_say s w w' :
  printed_after (say s w) w' -> printed_after w w'.
Proof.
  intros [out ->]. exists (s :: out). unfold say, set_console. cbn.
  by rewrite <- app_assoc.
Qed.

Lemma printed_after_trans w1 w2 w3 :
  printed_after w1 w2 -> printed_after w2 w3 -> printed_after w1 w3.
Proof.
  intros [o1 ->] [o2 ->]. exists (o1 ++ o2)%list. unfold set_console. cbn.
  by rewrite <- app_assoc.
Qed.

Lemma printed_after_files w w' : printed_after w w' -> files w' = files w.
Proof. by intros [out ->]. Qed.

Lemma load_loop_skip c rest w :
  candidate_fails (files w) c ->
  exists w', printed_after w w' /\ load_loop (c :: rest) w = load_loop rest w'.
Proof.
  destruct c as [name path]. unfold candidate_fails. cbn [snd].
  rewrite load_loop_cons.
  destruct (files w !! path) as [f |].
  - destruct (unpickle f) as [e | mdl].
    + intros _. eexists. split; [| reflexivity].
      eapply printed_after_say, printed_after_refl.
    + cbn zeta. destruct (files w !! scaler_path_of path) as [fs |]; [| done].
      destruct (unpickle fs) as [e | sc]; [| done].
      intros _. eexists. split; [| reflexivity].
      do 2 eapply printed_after_say. apply printed_after_refl.
  - intros _. exists w. split; [apply printed_after_refl | reflexivity].
Qed.

Lemma load_loop_skip_all pre rest w :
  Forall (candidate_fails (files w)) pre ->
  exists w', printed_after w w'
             /\ load_loop (pre ++ rest) w = load_loop rest w'.
Proof.
  revert w. induction pre as [| c pre IH]; intros w Hall.
  - exists w. split; [apply printed_after_refl | reflexivity].
  - inversion Hall as [| ? ? Hc Hpre]; subst.
    destruct (load_loop_skip c (pre ++ rest) w Hc) as (w1 & Hp1 & H1).
    destruct (IH w1) as (w2 & Hp2 & H2).
    { by rewrite (printed_after_files _ _ Hp1). }
    exists w2. split; [by eapply printed_after_trans |].
    cbn [app]. by rewrite H1.
Qed.

(** The loop never raises, and it only prints. *)
Lemma load_loop_total cands w :
  exists r w', load_loop cands w = (inr r, w') /\ printed_after w w'.
Proof.
  revert w. induction cands as [| [name path] rest IH]; intros w.
  - exists None, w. split; [reflexivity | apply printed_after_refl].
  - rewrite load_loop_cons.
    destruct (files w !! path) as [f |]; [| apply IH].
    destruct (unpickle f) as [e | mdl].
    + destruct (IH (say ("Failed to load " ++ name ++ ": " ++ exn_msg e) w))
        as (r & w' & H & Hp).
      exists r, w'. split; [exact H | by eapply printed_after_say].
    + cbn zeta. destruct (files w !! scaler_path_of path) as [fs |].
      * destruct (unpickle fs) as [e | sc].
        -- match goal with
           | |- context [load_loop rest ?w1] =>
               destruct (IH w1) as (r & w' & H & Hp)
           end.
           exists r, w'. split; [exact H |].
           by do 2 eapply printed_after_say.
        -- eexists _, _. split; [reflexivity |].
           do 2 eapply printed_after_say. apply printed_after_refl.
      * eexists _, _. split; [reflexivity |].
        eapply printed_after_say, printed_after_refl.
Qed.

Lemma uniform_of_range (raw : Z) : (0 <= uniform_of raw < 1)%Q.
Proof.
  unfold uniform_of, Qle, Qlt. cbn.
  pose proof (Z.mod_pos_bound raw (2 ^ 53) eq_refl) as [Hlo Hhi].
  split; [lia |].
  change (Z.pos (2 ^ 53)) with (2 ^ 53)%Z. lia.
Qed.

(** [np.random.rand(r, c)] gives [r] rows of [c] floats of [[0, 1)]. *)
Lemma np_random_rand_spec (r c : nat) (w : World) :
  exists X,
    np_random_rand r c w = (inr X, set_np_pos (np_pos w + r * c) w)
    /\ length X = r
    /\ Forall (fun row => length row = c
                          /\ Forall (fun x => (0 <= x < 1)%Q) row) X.
Proof.
  eexists. split; [reflexivity |]. split.
  - by rewrite length_map, length_seq.
  - apply Forall_map, Forall_forall. intros i _. cbn. split.
    + by rewrite length_map, length_seq.
    + apply Forall_map, Forall_forall. intros j _. apply uniform_of_range.
Qed.

(** [np.random.randint(0, 2, n)] gives [n] labels, each [0] or [1]. *)
Lemma np_random_randint_binary (n : nat) (w : World) :
  exists y,
    np_random_randint 0 2 n w = (inr y, set_np_pos (np_pos w + n) w)
    /\ length y = n
    /\ Forall (fun l => l = 0%Z \/ l = 1%Z) y.
Proof.
  eexists. split; [reflexivity |]. split.
  - by rewrite length_map, length_seq.
  - apply Forall_map, Forall_forall. intros i _. cbn.
    pose proof (Z.mod_pos_bound (np_stream w (np_pos w + i)) 2 eq_refl).
    change (2 - 0)%Z with 2%Z. lia.
Qed.

(** The loader once [joblib] is imported and the loop has found nothing:
    the demo classifier, or the fatal error when scikit-learn is missing. *)
Lemma load_after_empty_loop (w w1 : World) :
  joblib_available w = true ->
  load_loop model_files w = (inr None, w1) ->
  printed_after w w1 ->
  match sklearn w with
  | Some fit =>
      exists X y w',
        load_best_model_and_meta w
        = (inr ("Demo_RandomForest", fit demo_params X y, None, None), w')
        /\ length X = 100
        /\ Forall (fun row => length row = 6
                              /\ Forall (fun x => (0 <= x < 1)%Q) row) X
        /\ length y = 100
        /\ Forall (fun l => l = 0%Z \/ l = 1%Z) y
        /\ files w' = files w
  | None =>
      exists w',
        load_best_model_and_meta w
        = (inl (Exn PlainException "Failed to load or create model"), w')
        /\ files w' = files w
  end.
Proof.
  intros Hjob Hloop [out ->].
  unfold load_best_model_and_meta, try_except_if.
  erewrite (bind_inr import_joblib)
    by (unfold import_joblib; rewrite Hjob; reflexivity).
  erewrite (bind_inr (load_loop model_files)) by exact Hloop.
  cbn beta iota.
  erewrite (bind_inr (print _)) by reflexivity.
  destruct (sklearn w) as [fit |] eqn:Hsk.
  - erewrite (bind_inr import_RandomForestClassifier)
      by (unfold import_RandomForestClassifier; cbn [sklearn say set_console];
          rewrite Hsk; reflexivity).
    set (w2 := say _ _).
    destruct (np_random_rand_spec 100 6 w2) as (X & HX & HlX & HfX).
    erewrite (bind_inr (np_random_rand 100 6)) by exact HX.
    set (w3 := set_np_pos _ _).
    destruct (np_random_randint_binary 100 w3) as (y & Hy & Hly & Hfy).
    erewrite (bind_inr (np_random_randint 0 2 100)) by exact Hy.
    erewrite (bind_inr (print _)) by reflexivity.
    exists X, y. eexists. split; [reflexivity |].
    repeat split; assumption.
  - erewrite (bind_inl import_RandomForestClassifier)
      by (unfold import_RandomForestClassifier; cbn [sklearn say set_console];
          rewrite Hsk; reflexivity).
    eexists. split; reflexivity.
Qed.

Lemma load_after_loop_some (w w1 : World) (t : Loaded) :
  joblib_available w = true ->
  load_loop model_files w = (inr (Some t), w1) ->
  load_best_model_and_meta w = (inr t, w1).
Proof.
  intros Hjob Hloop.
  unfold load_best_model_and_meta, try_except_if.
  erewrite (bind_inr import_joblib)
    by (unfold import_joblib; rewrite Hjob; reflexivity).
  erewrite (bind_inr (load_loop model_files)) by exact Hloop.
  reflexivity.
Qed.

(** The loader raises only when one of the two libraries is missing. *)
Lemma load_fatal_only_without_library (w : World) e w' :
  load_best_model_and_meta w = (inl e, w') ->
  (joblib_available w = false \/ sklearn w = None)
  /\ e = Exn PlainException "Failed to load or create model".
Proof.
  intros Hload.
  destruct (joblib_available w) eqn:Hjob.
  - destruct (load_loop_total model_files w) as ([t |] & w1 & Hloop & Hp).
    + rewrite (load_after_loop_some _ _ _ Hjob Hloop) in Hload. discriminate.
    + pose proof (load_after_empty_loop w w1 Hjob Hloop Hp) as H.
      destruct (sklearn w) as [fit |].
      * destruct H as (X & y & w2 & H & _). rewrite H in Hload. discriminate.
      * destruct H as (w2 & H & _). rewrite H in Hload.
        injection Hload as <- _. auto.
  - unfold load_best_model_and_meta, try_except_if in Hload.
    erewrite (bind_inl import_joblib) in Hload
      by (unfold import_joblib; rewrite Hjob; reflexivity).
    cbn in Hload. injection Hload as <- _. auto.
Qed.

(** C4, as amended: when [joblib] and scikit-learn can be imported and no
    candidate loads (each model file is absent or does not deserialize, or
    its scaler file does not), [load_best_model_and_meta] returns the tuple
    [("Demo_RandomForest", model, None, None)] without touching any file;
    the model is the random forest built with [n_estimators = 10] and
    [random_state = 42], which are not the defaults of the library, fitted
    on 100 rows of 6 floats of [[0, 1)] and 100 labels that are [0] or [1],
    all drawn from [numpy.random]. In every world, the loader raises only
    when [joblib] or scikit-learn cannot be imported, and what it raises is
    the exception "Failed to load or create model". *)
Theorem demo_classifier_fallback (w : World)
    (fit : RFParams -> array2 -> list Z -> PyObj) :
  joblib_available w = true ->
  sklearn w = Some fit ->
  Forall (candidate_fails (files w)) model_files ->
  (exists X y w',
     load_best_model_and_meta w
     = (inr ("Demo_RandomForest",
             fit {| n_estimators := 10; random_state := Some 42%Z |} X y,
             None, None), w')
     /\ length X = 100
     /\ Forall (fun row => length row = 6
                           /\ Forall (fun x => (0 <= x < 1)%Q) row) X
     /\ length y = 100
     /\ Forall (fun l => l = 0%Z \/ l = 1%Z) y
     /\ files w' = files w)
  /\ (forall w0 e w0',
        load_best_model_and_meta w0 = (inl e, w0') ->
        (joblib_available w0 = false \/ sklearn w0 = None)
        /\ e = Exn PlainException "Failed to load or create model").
Proof.
  intros Hjob Hsk Hall. split; [| apply load_fatal_only_without_library].
  destruct (load_loop_skip_all model_files [] w Hall) as (w1 & Hp & Hloop).
  rewrite app_nil_r in Hloop. cbn [load_loop] in Hloop.
  pose proof (load_after_empty_loop w w1 Hjob Hloop Hp) as H.
  rewrite Hsk in H. exact H.
Qed.

Lemma demo_classifier_fallback_witness :
  exists X y w',
    load_best_model_and_meta Examples.empty_world
    = (inr ("Demo_RandomForest", Examples.toy_fit demo_params X y, None, None),
       w')
    /\ length X = 100 /\ length y = 100.
Proof.
  destruct (demo_classifier_fallback Examples.empty_world Examples.toy_fit)
    as [(X & y & w' & H & HX & _ & Hy & _) _].
  - reflexivity.
  - reflexivity.
  - repeat constructor.
  - exists X, y, w'. repeat split; assumption.
Defined.

(** C4, as stated, fails: in a world without model files and with both
    libraries, the classifier the loader returns is built with
    [n_estimators = 10] and [random_state = 42]; it is not the
    default-configured classifier fitted on whatever data. *)
Lemma demo_classifier_not_default_configured :
  exists mdl w',
    load_best_model_and_meta Examples.empty_world
    = (inr ("Demo_RandomForest", mdl, None, None), w')
    /\ sklearn Examples.empty_world = Some Examples.toy_fit
    /\ (exists X y, mdl = Examples.toy_fit demo_params X y)
    /\ (forall X y, mdl <> Examples.toy_fit RandomForestClassifier_defaults X y)
    /\ demo_params <> RandomForestClassifier_defaults.
Proof.
  destruct (load_after_empty_loop Examples.empty_world Examples.empty_world)
    as (X & y & w' & H & _).
  - reflexivity.
  - reflexivity.
  - apply printed_after_refl.
  - exists (Examples.toy_fit demo_params X y), w'.
    split; [exact H |]. split; [reflexivity |].
    split; [by exists X, y |]. split; [| discriminate].
    intros X' y' Heq. apply (f_equal predict_proba) in Heq. cbn in Heq.
    injection Heq as Heq. apply (f_equal (fun f => f [])) in Heq.
    discriminate.
Qed.

(** C5, as amended: the first candidate, in the order of [model_files],
    whose model file exists and deserializes is returned at once, with no
    later candidate tried and no file written, provided its scaler file is
    absent (the scaler returned is [None]) or deserializes (that scaler is
    returned). When the scaler file exists and does not deserialize, the
    exception is caught by the handler of the candidate: the failure is
    printed, the model just loaded is dropped, and the loop goes on with
    the candidates that remain. *)
Theorem first_loadable_candidate_returned (w : World)
    (pre post : list (string * string)) (name path : string)
    (f : File) (mdl : PyObj) :
  joblib_available w = true ->
  model_files = (pre ++ (name, path) :: post)%list ->
  Forall (candidate_fails (files w)) pre ->
  files w !! path = Some f ->
  unpickle f = inr mdl ->
  match files w !! str_replace "_model.joblib" "_scaler.joblib" path with
  | None =>
      exists w',
        load_best_model_and_meta w = (inr (name, mdl, None, None), w')
        /\ files w' = files w
  | Some fs =>
      match unpickle fs with
      | inr sc =>
          exists w',
            load_best_model_and_meta w = (inr (name, mdl, Some sc, None), w')
            /\ files w' = files w
      | inl e =>
          exists w',
            load_loop model_files w = load_loop post w'
            /\ files w' = files w
            /\ last (console w')
               = Some ("Failed to load " ++ name ++ ": " ++ exn_msg e)
      end
  end.
Proof.
  intros Hjob Hsplit Hpre Hf Hmdl.
  destruct (load_loop_skip_all pre ((name, path) :: post) w Hpre)
    as (w1 & Hp & Hloop).
  rewrite <- Hsplit in Hloop.
  pose proof (printed_after_files _ _ Hp) as Hfiles.
  rewrite load_loop_cons, Hfiles, Hf, Hmdl in Hloop. cbn zeta in Hloop.
  fold (scaler_path_of path).
  destruct (files w !! scaler_path_of path) as [fs |].
  - destruct (unpickle fs) as [e | sc].
    + eexists. split; [exact Hloop |]. split; [by rewrite !say_files |].
      unfold say at 1. cbn [console set_console]. apply last_snoc.
    + eexists. split; [by apply load_after_loop_some |].
      by rewrite !say_files.
  - eexists. split; [by apply load_after_loop_some |].
    by rewrite !say_files.
Qed.

Lemma first_loadable_candidate_returned_witness :
  exists w',
    load_best_model_and_meta Examples.xgb_world
    = (inr ("XGBoost", Examples.proba_model 0.9, None, None), w')
    /\ files w' = files Examples.xgb_world.
Proof.
  refine (first_loadable_candidate_returned Examples.xgb_world
            [("RandomForest", "models/rf_model.joblib")]
            [("IsolationForest", "models/iso_model.joblib")]
            "XGBoost" "models/xgb_model.joblib"
            (Examples.pickled (Examples.proba_model 0.9))
            (Examples.proba_model 0.9) _ _ _ _ _);
    try reflexivity.
  repeat constructor.
Defined.

(** C5, as stated, fails: the random forest model file deserializes, its
    scaler file exists and does not; the loader does not return that model
    with scaler [None], it prints the failure and ends with the demo
    classifier. *)
Lemma corrupt_scaler_drops_loaded_model :
  exists f mdl fs e loaded w',
    files Examples.bad_scaler_world !! "models/rf_model.joblib" = Some f
    /\ unpickle f = inr mdl
    /\ files Examples.bad_scaler_world !! "models/rf_scaler.joblib" = Some fs
    /\ unpickle fs = inl e
    /\ load_best_model_and_meta Examples.bad_scaler_world = (inr loaded, w')
    /\ fst (fst (fst loaded)) = "Demo_RandomForest"
    /\ loaded <> ("RandomForest", mdl, None, None)
    /\ In "Failed to load RandomForest: pickle data was truncated" (console w').
Proof.
  eexists _, _, _, _, _, _.
  split; [vm_compute; reflexivity |].
  split; [reflexivity |].
  split; [vm_compute; reflexivity |].
  split; [reflexivity |].
  split; [vm_compute; reflexivity |].
  split; [reflexivity |].
  split; [discriminate |].
  cbn. auto.
Qed.


(** * Further properties *)

(** ** Dictionaries *)

Lemma dict_lookup_set {A} (k k' : string) (v : A) (d : dict A) :
  dict_lookup k (dict_set k' v d)
  = if String.eqb k k' then Some v else dict_lookup k d.
Proof.
  induction d as [| [k0 v0] d IH]; cbn.
  - reflexivity.
  - destruct (String.eqb k' k0) eqn:Hk0; cbn.
    + apply String.eqb_eq in Hk0. subst k0.
      destruct (String.eqb k k'); reflexivity.
    + destruct (String.eqb k k0) eqn:Hk.
      * apply String.eqb_eq in Hk. subst k0.
        rewrite String.eqb_sym in Hk0. by rewrite Hk0.
      * exact IH.
Qed.

Lemma dict_lookup_keys {A} (k : string) (d : dict A) :
  is_Some (dict_lookup k d) <-> In k (map fst d).
Proof.
  induction d as [| [k0 v0] d IH]; cbn.
  - split; [by intros [? ?] | tauto].
  - destruct (String.eqb k k0) eqn:Hk.
    + apply String.eqb_eq in Hk. subst. split; eauto.
    + apply String.eqb_neq in Hk. rewrite IH. split; [tauto |].
      intros [-> | H]; [done | exact H].
Qed.

(** ** The feature simulator, for any simulation parameters *)

(** The loop on items whose keys all have a standard deviation: no
    exception, one draw per item, one entry per key visited. *)
Lemma generate_loop_covered items :
  forall features s,
    (forall k, In k (map fst items) ->
               is_Some (dict_lookup k (feature_variance (self s)))) ->
    exists fs,
      generate_loop items features s
      = (inr fs,
         {| self := self s;
            world := set_gauss_pos (length items + gauss_pos (world s))
                       (world s) |})
      /\ (all_nonneg features -> all_nonneg fs)
      /\ (forall k, is_Some (dict_lookup k fs)
                    <-> In k (map fst items) \/ is_Some (dict_lookup k features)).
Proof.
  induction items as [| [feature base_value] rest IH]; intros features s Hcov.
  - exists features. cbn. split; [| split; [tauto | intros k; tauto]].
    unfold ret. f_equal. destruct s as [m w]. cbn. f_equal. by destruct w.
  - cbn [generate_loop].
    destruct (Hcov feature) as [variance Hvar]; [cbn; auto |].
    unfold bind at 1, get_self at 1, gets at 1.
    unfold bind at 1, lift_result at 1, dict_get at 1. rewrite Hvar.
    unfold bind at 1, liftW at 1, random_gauss at 1. cbn [world self].
    match goal with
    | |- context [generate_loop rest ?f ?s1] =>
        destruct (IH f s1) as (fs & Hrun & Hnn & Hkeys)
    end.
    { intros k Hk. apply Hcov. cbn. auto. }
    exists fs. split; [| split].
    + rewrite Hrun. cbn. unfold set_gauss_pos. cbn.
      replace (length rest + S (gauss_pos (world s)))
        with (S (length rest + gauss_pos (world s))) by lia.
      reflexivity.
    + intros Hf. apply Hnn, dict_set_nonneg; [apply py_max0_nonneg | exact Hf].
    + intros k. rewrite Hkeys, dict_lookup_set. cbn [map fst].
      destruct (String.eqb k feature) eqn:Hk.
      * apply String.eqb_eq in Hk. subst. cbn [In]. split; intros _.
        -- left. by left.
        -- right. eauto.
      * apply String.eqb_neq in Hk. cbn [In]. split.
        -- intros [H | H]; auto.
        -- intros [[-> | H] | H]; [done | auto | auto].
Qed.

(** X1: for any simulation parameters in which every metric of
    [base_features] has an entry in [feature_variance],
    [_generate_simulated_features] returns without raising; the dictionary
    has exactly the keys of [base_features], every value is at least
    zero, one normal deviate is consumed per metric and nothing else in
    the monitor or the world changes. *)
Theorem simulated_features_any_parameters (s : Ctx) :
  (forall k, In k (map fst (base_features (self s))) ->
             is_Some (dict_lookup k (feature_variance (self s)))) ->
  exists features,
    _generate_simulated_features s
    = (inr features,
       {| self := self s;
          world := set_gauss_pos
                     (length (base_features (self s)) + gauss_pos (world s))
                     (world s) |})
    /\ all_nonneg features
    /\ (forall k, is_Some (dict_lookup k features)
                  <-> In k (map fst (base_features (self s)))).
Proof.
  intros Hcov.
  destruct (generate_loop_covered (base_features (self s)) [] s Hcov)
    as (fs & Hrun & Hnn & Hkeys).
  exists fs. split; [exact Hrun |]. split; [apply Hnn; constructor |].
  intros k. rewrite Hkeys. cbn. split; [| auto].
  intros [H | [? H]]; [exact H | discriminate].
Qed.

Lemma simulated_features_any_parameters_witness :
  exists features s',
    _generate_simulated_features
      {| self := set_simulation [("cpu_load", 0.5%Q); ("keys", 3.0%Q)]
                   [("keys", 1.0%Q); ("cpu_load", 2.0%Q)]
                   (Examples.monitor_of "demo" (Examples.label_model 1));
         world := Examples.empty_world |}
    = (inr features, s')
    /\ all_nonneg features.
Proof.
  destruct (simulated_features_any_parameters
              {| self := set_simulation [("cpu_load", 0.5%Q); ("keys", 3.0%Q)]
                           [("keys", 1.0%Q); ("cpu_load", 2.0%Q)]
                           (Examples.monitor_of "demo" (Examples.label_model 1));
                 world := Examples.empty_world |})
    as (features & Hrun & Hnn & _).
  - intros k [<- | [<- | []]]; cbn; eauto.
  - eexists _, _. split; [exact Hrun | exact Hnn].
Defined.

(** The loop stops at the first metric without a standard deviation. *)
Lemma generate_loop_missing pre :
  forall k base_value post features s,
    (forall k', In k' (map fst pre) ->
                is_Some (dict_lookup k' (feature_variance (self s)))) ->
    dict_lookup k (feature_variance (self s)) = None ->
    generate_loop (pre ++ (k, base_value) :: post) features s
    = (inl (Exn KeyError ("'" ++ k ++ "'")),
       {| self := self s;
          world := set_gauss_pos (length pre + gauss_pos (world s))
                     (world s) |}).
Proof.
  induction pre as [| [k0 b0] pre IH]; intros k base_value post features s Hcov Hk.
  - cbn [app generate_loop].
    unfold bind at 1, get_self at 1, gets at 1.
    unfold bind at 1, lift_result at 1, dict_get at 1. rewrite Hk.
    f_equal. destruct s as [m w]. cbn. f_equal. by destruct w.
  - cbn [app generate_loop].
    destruct (Hcov k0) as [variance Hvar]; [cbn; auto |].
    unfold bind at 1, get_self at 1, gets at 1.
    unfold bind at 1, lift_result at 1, dict_get at 1. rewrite Hvar.
    unfold bind at 1, liftW at 1, random_gauss at 1. cbn [world self].
    rewrite IH; cbn [self world]; [| intros k' Hk'; apply Hcov; cbn; auto | exact Hk].
    unfold set_gauss_pos. cbn.
    replace (length pre + S (gauss_pos (world s)))
      with (S (length pre + gauss_pos (world s))) by lia.
    reflexivity.
Qed.

(** X2: when a metric of [base_features] has no entry in
    [feature_variance], feature generation raises [KeyError] at the first
    such metric, after one draw for each metric before it; the tick then
    prints the error, returns [None], and leaves the monitor and every
    file as they were: no record is logged. *)
Theorem missing_variance_skips_the_tick (s : Ctx)
    (pre post : list (string * Q)) (k : string) (base_value : Q) :
  base_features (self s) = (pre ++ (k, base_value) :: post)%list ->
  (forall k', In k' (map fst pre) ->
              is_Some (dict_lookup k' (feature_variance (self s)))) ->
  dict_lookup k (feature_variance (self s)) = None ->
  let w1 := set_gauss_pos (length pre + gauss_pos (world s)) (world s) in
  _generate_simulated_features s
  = (inl (Exn KeyError ("'" ++ k ++ "'")), {| self := self s; world := w1 |})
  /\ run_detection_once s
     = (inr None,
        {| self := self s;
           world := say ("Detection error: '" ++ k ++ "'") w1 |})
  /\ files (say ("Detection error: '" ++ k ++ "'") w1) = files (world s).
Proof.
  intros Hbase Hcov Hk w1.
  assert (Hgen : _generate_simulated_features s
                 = (inl (Exn KeyError ("'" ++ k ++ "'")),
                    {| self := self s; world := w1 |})).
  { unfold _generate_simulated_features, bind, get_self, gets. cbn beta iota.
    rewrite Hbase. by apply generate_loop_missing. }
  split; [exact Hgen |]. split; [| reflexivity].
  by rewrite (run_detection_once_generation_error _ _ _ Hgen).
Qed.

Lemma missing_variance_skips_the_tick_witness :
  run_detection_once
    {| self := Examples.monitor_without_variance;
       world := Examples.empty_world |}
  = (inr None,
     {| self := Examples.monitor_without_variance;
        world := say "Detection error: 'tab_switch_rate'"
                   (set_gauss_pos 2 Examples.empty_world) |}).
Proof.
  refine (proj1 (proj2 (missing_variance_skips_the_tick
            {| self := Examples.monitor_without_variance;
               world := Examples.empty_world |}
            [("avg_mouse_speed", 150.0%Q); ("avg_typing_speed", 200.0%Q)]
            [("mouse_click_rate", 2.0%Q); ("keyboard_error_rate", 0.05%Q);
             ("active_window_duration", 10.0%Q)]
            "tab_switch_rate" 0.5%Q _ _ _))).
  - reflexivity.
  - intros k' [<- | [<- | []]]; cbn; eauto.
  - reflexivity.
Defined.


(** ** The log file, for any monitor *)

Lemma appends_nothing p w w' :
  files w' = files w -> readonly w' = readonly w ->
  appends_at_most_one_row p w w'.
Proof.
  intros Hf Hr. unfold appends_at_most_one_row, log_rows. rewrite Hf.
  repeat split; eauto.
Qed.


Lemma detection_row_length keys d r :
  detection_row keys d = inr r -> length r = length keys.
Proof.
  revert r. induction keys as [| k keys IH]; intros r; cbn.
  - by intros [= <-].
  - destruct (dict_get k d) as [e | c]; [discriminate |].
    destruct (detection_row keys d) as [e | r']; [discriminate |].
    intros [= <-]. cbn. by rewrite (IH r').
Qed.

(** The logging step, for any record and any state: [self] is kept, and
    the log gains one full row or nothing. *)
Ltac frame3 :=
  split; [reflexivity | split; [reflexivity | split; [reflexivity |]]].

Lemma log_detection_effect d s :
  self (snd (_log_detection d s)) = self s
  /\ gauss_pos (world (snd (_log_detection d s))) = gauss_pos (world s)
  /\ clock_pos (world (snd (_log_detection d s))) = clock_pos (world s)
  /\ appends_at_most_one_row (log_file (self s)) (world s)
       (world (snd (_log_detection d s))).
Proof.
  rewrite log_detection_eq.
  unfold log_body, bind, get_self, gets, liftW, lift_result.
  cbn beta iota. set (p := log_file (self s)).
  unfold open_a. destruct (bool_decide (p ∈ readonly (world s))).
  { cbn. frame3. by apply appends_nothing. }
  destruct (files (world s) !! p) as [f |] eqn:Hf.
  - destruct (detection_row columns d) as [e | r] eqn:Hr; cbn.
    { frame3. by apply appends_nothing. }
    unfold writerow, modify. rewrite Hf. cbn.
    frame3.
    unfold appends_at_most_one_row, log_rows. cbn. rewrite Hf.
    split; [intros q Hq; by rewrite lookup_insert_ne |].
    rewrite lookup_insert_eq. cbn. split; [| split; [| reflexivity]].
    + right. exists r. split; [| reflexivity].
      apply (detection_row_length _ _ _ Hr).
    + intros f0 [= <-]. eauto.
  - destruct (detection_row columns d) as [e | r] eqn:Hr; cbn.
    + frame3.
      unfold appends_at_most_one_row, log_rows. cbn. rewrite Hf.
      split; [intros q Hq; by rewrite lookup_insert_ne |].
      rewrite lookup_insert_eq. cbn. split; [by left | split; [done | reflexivity]].
    + unfold writerow, modify. cbn. rewrite lookup_insert_eq. cbn.
      frame3.
      unfold appends_at_most_one_row, log_rows. cbn. rewrite Hf.
      split; [intros q Hq; by rewrite !lookup_insert_ne |].
      rewrite lookup_insert_eq. cbn. split; [| split; [done | reflexivity]].
      right. exists r. split; [| reflexivity].
      apply (detection_row_length _ _ _ Hr).
Qed.


Lemma before_log_effect features s1 :
  files (world (before_log features s1)) = files (world s1)
  /\ readonly (world (before_log features s1)) = readonly (world s1)
  /\ gauss_pos (world (before_log features s1)) = gauss_pos (world s1)
  /\ clock_pos (world (before_log features s1)) = S (clock_pos (world s1))
  /\ log_file (self (before_log features s1)) = log_file (self s1).
Proof.
  unfold before_log. rewrite predict_with_model_eq.
  destruct (score_for (self s1) features); repeat split; reflexivity.
Qed.


(** ** The record and the log of a monitor as built *)

(** X4: on a monitor with the simulation parameters [__init__] sets, the
    record a tick returns has exactly the eleven columns of the log as
    keys, in the order of the header: the clock reading, the constant
    user ["cloud_user"], the model name, the score and the flag, then the
    six features drawn. It has no key ["prediction"]: the label of the
    inference step is not part of the record. One clock reading and six
    normal deviates are consumed. *)
Theorem detection_record_shape (s : Ctx) :
  simulation_intact (self s) ->
  exists d s' sc,
    run_detection_once s = (inr (Some d), s')
    /\ d = ([("timestamp", VStr (clock (world s) (clock_pos (world s))));
             ("user_id", VStr "cloud_user");
             ("model", VStr (model_name (self s)));
             ("score", VNum (NFloat sc));
             ("is_improper", VNum (NInt (improper_of sc)))]
            ++ map (fun kv => (fst kv, VNum (snd kv)))
                 (drawn_features (world s)))%list
    /\ map fst d = columns
    /\ dict_lookup "prediction" d = None
    /\ self s' = self s
    /\ clock_pos (world s') = S (clock_pos (world s))
    /\ gauss_pos (world s') = 6 + gauss_pos (world s).
Proof.
  intros Hsim.
  pose proof (detection_after_features _ _ _ (generate_constructed s Hsim)) as Hrun.
  set (s1 := {| self := self s;
                world := set_gauss_pos (6 + gauss_pos (world s)) (world s) |}) in *.
  set (features := drawn_features (world s)) in *.
  destruct (log_detection_effect (record_of features s1) (before_log features s1))
    as (Hself & Hg & Hc & _).
  destruct (before_log_effect features s1) as (_ & _ & Hg1 & Hc1 & _).
  eexists _, _, (score_or_default (self s1) features).
  split; [exact Hrun |].
  split; [reflexivity |]. split; [reflexivity |]. split; [reflexivity |].
  cbn [snd]. rewrite Hself, Hg, Hc, Hg1, Hc1, before_log_self.
  repeat split.
Qed.

Lemma detection_record_shape_witness :
  exists d s',
    run_detection_once (Examples.ctx_of (Examples.label_model (-1)))
    = (inr (Some d), s')
    /\ map fst d = columns
    /\ dict_lookup "prediction" d = None.
Proof.
  destruct (detection_record_shape (Examples.ctx_of (Examples.label_model (-1))))
    as (d & s' & sc & Hrun & _ & Hkeys & Hnone & _).
  - split; reflexivity.
  - exists d, s'. repeat split; assumption.
Defined.

Lemma log_detection_readonly d s :
  log_file (self s) ∈ readonly (world s) ->
  _log_detection d s
  = (inr tt,
     {| self := self s;
        world := say ("Logging error: "
                      ++ exn_msg (PermissionError (log_file (self s))))
                   (world s) |}).
Proof.
  intros Hro. rewrite log_detection_eq.
  unfold log_body, bind, get_self, gets, liftW, lift_result. cbn beta iota.
  by rewrite (open_a_readonly _ _ Hro).
Qed.

(** X5: when the log file cannot be opened for writing, a tick of a
    monitor as built still returns its record, with score and flag in
    agreement; the logging step prints the permission error as the last
    line of the console and no file changes. *)
Theorem unwritable_log_still_returns_record (s : Ctx) :
  simulation_intact (self s) ->
  log_file (self s) ∈ readonly (world s) ->
  exists d s',
    run_detection_once s = (inr (Some d), s')
    /\ flag_agrees d
    /\ files (world s') = files (world s)
    /\ last (console (world s'))
       = Some ("Logging error: [Errno 13] Permission denied: '"
               ++ log_file (self s) ++ "'").
Proof.
  intros Hsim Hro.
  pose proof (detection_after_features _ _ _ (generate_constructed s Hsim)) as Hrun.
  set (s1 := {| self := self s;
                world := set_gauss_pos (6 + gauss_pos (world s)) (world s) |}) in *.
  set (features := drawn_features (world s)) in *.
  destruct (before_log_effect features s1) as (Hf & Hr & _ & _ & Hp).
  rewrite log_detection_readonly in Hrun by (by rewrite Hp, Hr).
  eexists _, _. split; [exact Hrun |].
  destruct (record_of_lookup_constructed (world s) s1) as [Hsc Hfl].
  split.
  { eexists _, _. split; [exact Hsc |]. split; [exact Hfl |].
    split; [apply improper_of_binary | apply improper_of_iff]. }
  cbn [snd world]. rewrite say_files, Hf. split; [reflexivity |].
  unfold say. cbn [console set_console]. rewrite last_snoc, Hp. reflexivity.
Qed.

Lemma unwritable_log_still_returns_record_witness :
  exists d s',
    run_detection_once
      {| self := Examples.monitor_of "demo" (Examples.proba_model 0.9);
         world := Examples.world_with ∅ {[ "detections_log.csv" ]} |}
    = (inr (Some d), s')
    /\ files (world s') = ∅.
Proof.
  destruct (unwritable_log_still_returns_record
              {| self := Examples.monitor_of "demo" (Examples.proba_model 0.9);
                 world := Examples.world_with ∅ {[ "detections_log.csv" ]} |})
    as (d & s' & Hrun & _ & Hfiles & _).
  - split; reflexivity.
  - cbn. set_solver.
  - exists d, s'. split; [exact Hrun | exact Hfiles].
Defined.

(** X6: the header is written by [__init__] alone. When the log file is
    missing at the time of a tick (removed after the monitor was built)
    and can be created, the tick creates it with the row of its record as
    the only row: the file has no header row. *)
Theorem missing_log_recreated_without_header (s : Ctx) :
  simulation_intact (self s) ->
  files (world s) !! log_file (self s) = None ->
  log_file (self s) ∉ readonly (world s) ->
  exists d r s',
    run_detection_once s = (inr (Some d), s')
    /\ detection_row columns d = inr r
    /\ files (world s')
       = <[log_file (self s) := {| rows := [r]; unpickle := not_a_pickle |}]>
           (files (world s)).
Proof.
  intros Hsim Hnone Hro.
  pose proof (detection_after_features _ _ _ (generate_constructed s Hsim)) as Hrun.
  set (s1 := {| self := self s;
                world := set_gauss_pos (6 + gauss_pos (world s)) (world s) |}) in *.
  destruct (record_of_row (world s) s1) as (r & Hr & _).
  destruct (before_log_effect (drawn_features (world s)) s1)
    as (Hf & Hreadonly & _ & _ & Hp).
  exists (record_of (drawn_features (world s)) s1), r. eexists.
  split; [exact Hrun |]. split; [exact Hr |].
  rewrite log_detection_eq.
  unfold log_body, bind, get_self, gets, liftW, lift_result. cbn beta iota.
  rewrite Hr, Hp.
  unfold open_a. rewrite Hreadonly, Hf.
  change (readonly (world s1)) with (readonly (world s)).
  change (files (world s1)) with (files (world s)).
  change (log_file (self s1)) with (log_file (self s)).
  rewrite (bool_decide_eq_false_2 _ Hro), Hnone. cbn beta iota.
  unfold writerow, modify. cbn. rewrite lookup_insert_eq. cbn.
  by rewrite insert_insert_eq.
Qed.

Lemma missing_log_recreated_without_header_witness :
  exists d r s',
    run_detection_once (Examples.ctx_of (Examples.proba_model 0.9))
    = (inr (Some d), s')
    /\ (rows <$> files (world s') !! "detections_log.csv") = Some [r].
Proof.
  destruct (missing_log_recreated_without_header
              (Examples.ctx_of (Examples.proba_model 0.9)))
    as (d & r & s' & Hrun & _ & Hfiles).
  - split; reflexivity.
  - reflexivity.
  - cbn. set_solver.
  - exists d, r, s'. split; [exact Hrun |].
    rewrite Hfiles. cbn. by rewrite lookup_insert_eq.
Defined.

(** X7: [__init__] has no handler around [_init_log_file]. When the log
    file is missing and cannot be created, the constructor raises the
    permission error, prints nothing, and leaves no monitor. In every other
    world it returns a stopped monitor that holds its arguments, the fixed
    log path and the simulation parameters; an existing log file is left
    as it is and a missing one is created with the header as its only
    row. *)
Theorem constructor_outcome name mdl sc ae ws di (w : World) :
  let p := "detections_log.csv" in
  let m := {| model_name := name; model := mdl; scaler := sc; ae_meta := ae;
              window_seconds := ws; detection_interval := di;
              is_running := false; detection_thread := None; log_file := p;
              base_features := init_base_features;
              feature_variance := init_feature_variance |} in
  match files w !! p with
  | Some _ => __init__ name mdl sc ae ws di w = (inr m, w)
  | None =>
      if bool_decide (p ∈ readonly w)
      then __init__ name mdl sc ae ws di w = (inl (PermissionError p), w)
      else __init__ name mdl sc ae ws di w
           = (inr m,
              set_files
                (<[p := {| rows := [headers]; unpickle := not_a_pickle |}]>
                   (files w)) w)
  end.
Proof.
  cbn zeta.
  unfold __init__, _init_log_file, os_path_exists, bind, get_self, gets, liftW.
  cbn beta iota. cbn [self world log_file].
  destruct (files w !! "detections_log.csv") as [f |] eqn:Hf.
  - rewrite bool_decide_eq_true_2 by eauto. reflexivity.
  - rewrite (bool_decide_eq_false_2 (is_Some (@None File)))
      by apply is_Some_None.
    cbn [negb]. unfold open_w. cbn [world].
    destruct (bool_decide ("detections_log.csv" ∈ readonly w)); [reflexivity |].
    cbn beta iota. unfold writerow, modify. cbn [files set_files world self].
    rewrite lookup_insert_eq. cbn. by rewrite insert_insert_eq.
Qed.

(** ** Scripts of operations *)

Lemma run_detection_once_never_raises (s : Ctx) :
  exists r w',
    run_detection_once s = (inr r, {| self := self s; world := w' |}).
Proof.
  destruct (flag_blind_run_detection_once (is_running (self s)) (self s) (world s))
    as [Hself _].
  rewrite ctx_eta in Hself.
  destruct (_generate_simulated_features s) as [[e | features] s1] eqn:Hgen.
  - rewrite (run_detection_once_generation_error _ _ _ Hgen) in *.
    cbn in Hself. rewrite Hself. eauto.
  - rewrite (detection_after_features _ _ _ Hgen) in *. cbn [snd] in Hself.
    destruct (snd _) as [m' w']. cbn in Hself. subst m'. eauto.
Qed.

Lemma final_flag_app ops1 ops2 b :
  final_flag (ops1 ++ ops2) b = final_flag ops2 (final_flag ops1 b).
Proof. unfold final_flag. apply fold_left_app. Qed.

(** X8: whatever the order in which a caller starts, stops and ticks a
    monitor, no operation raises, every tick yields one result, and at the
    end every attribute of the monitor is as at the beginning except the
    running flag, which is [True] if the last of the [start] and [stop]
    operations was a [start], [False] if it was a [stop], and unchanged if
    there was none. *)
Theorem script_keeps_attributes (ops : list MonitorOp) (s : Ctx) :
  exists ds s',
    run_script ops s = (inr ds, s')
    /\ length ds = ticks_of ops
    /\ self s' = set_is_running (final_flag ops (is_running (self s))) (self s).
Proof.
  revert s. induction ops as [| op ops IH]; intros s.
  - exists [], s. cbn. by rewrite set_is_running_same.
  - destruct op; cbn [run_script ticks_of].
    + destruct (IH {| self := set_is_running true (self s);
                      world := say ("Started cloud simulation monitor with model: "
                                    ++ model_name (self s)) (world s) |})
        as (ds & s' & Hrun & Hlen & Hself).
      exists ds, s'. erewrite bind_inr by reflexivity.
      split; [exact Hrun |]. split; [exact Hlen |].
      rewrite Hself. cbn. by rewrite set_is_running_twice.
    + destruct (IH {| self := set_is_running false (self s);
                      world := say "Stopped cloud simulation monitor" (world s) |})
        as (ds & s' & Hrun & Hlen & Hself).
      exists ds, s'. erewrite bind_inr by reflexivity.
      split; [exact Hrun |]. split; [exact Hlen |].
      rewrite Hself. cbn. by rewrite set_is_running_twice.
    + destruct (run_detection_once_never_raises s) as (r & w1 & Htick).
      destruct (IH {| self := self s; world := w1 |})
        as (ds & s' & Hrun & Hlen & Hself).
      exists (r :: ds), s'. erewrite bind_inr by exact Htick.
      erewrite bind_inr by exact Hrun.
      split; [reflexivity |]. split; [cbn; by rewrite Hlen | exact Hself].
Qed.

(** A script on a monitor as built, on the rows of a log file that can be
    written: one row per tick, in the order of the ticks. *)
Lemma script_logs_one_row_per_tick (ops : list MonitorOp) :
  forall (s : Ctx) (f : File),
    simulation_intact (self s) ->
    files (world s) !! log_file (self s) = Some f ->
    log_file (self s) ∉ readonly (world s) ->
    exists ds rs s',
      run_script ops s = (inr (map Some ds), s')
      /\ Forall2 (fun d r => detection_row columns d = inr r) ds rs
      /\ Forall (fun r => length r = 11) rs
      /\ length rs = ticks_of ops
      /\ files (world s') !! log_file (self s)
         = Some {| rows := rows f ++ rs; unpickle := unpickle f |}.
Proof.
  induction ops as [| op ops IH]; intros s f Hsim Hf Hro.
  - exists [], [], s. cbn. rewrite app_nil_r.
    repeat split; try constructor. rewrite Hf. by destruct f.
  - destruct op; cbn [run_script ticks_of].
    + erewrite bind_inr by reflexivity.
      apply (IH {| self := set_is_running true (self s);
                   world := say _ (world s) |} f); assumption.
    + erewrite bind_inr by reflexivity.
      apply (IH {| self := set_is_running false (self s);
                   world := say _ (world s) |} f); assumption.
    + destruct (tick_appends_one_row s f Hsim Hf Hro)
        as (d & r & s1 & Hrun & Hr & Hlen & Hself & Hro1 & Hfiles).
      destruct (IH s1 {| rows := rows f ++ [r]; unpickle := unpickle f |})
        as (ds & rs & s' & Hscript & Hrows & Hlens & Hn & Hlog).
      * by rewrite Hself.
      * rewrite Hself, Hfiles. apply lookup_insert_eq.
      * by rewrite Hself, Hro1.
      * exists (d :: ds), (r :: rs), s'.
        erewrite bind_inr by exact Hrun.
        erewrite bind_inr by exact Hscript.
        rewrite Hself in Hlog. cbn in Hlog. rewrite <- app_assoc in Hlog.
        split; [reflexivity |].
        split; [by constructor |].
        split; [by constructor |].
        split; [cbn; by rewrite Hn | exact Hlog].
Qed.

(** ** The model loader, in every world *)

Lemma reads_only_refl w : reads_only w w.
Proof. repeat split. exists []. by rewrite app_nil_r. Qed.

Lemma reads_only_say line w w1 : reads_only w w1 -> reads_only w (say line w1).
Proof.
  intros (Hf & Hr & Hg & Hc & lines & Hl). repeat split; try assumption.
  exists (lines ++ [line])%list. cbn. by rewrite Hl, app_assoc.
Qed.

Lemma reads_only_np n w w1 : reads_only w w1 -> reads_only w (set_np_pos n w1).
Proof. intros (Hf & Hr & Hg & Hc & Hl). repeat split; assumption. Qed.

Lemma reads_only_printed w w1 : printed_after w w1 -> reads_only w w1.
Proof. intros [lines ->]. repeat split. by exists lines. Qed.

(** X10: in every world and whatever it returns or raises,
    [load_best_model_and_meta] writes nothing: every file is as before, as
    are the write permissions, the [random] source and the clock; it only
    prints lines after those already on the console (and draws from
    [numpy.random] for the demo data). *)
Theorem loader_writes_nothing (w : World) :
  reads_only w (snd (load_best_model_and_meta w)).
Proof.
  destruct (joblib_available w) eqn:Hjob.
  - destruct (load_loop_total model_files w) as ([t |] & w1 & Hloop & Hp).
    + rewrite (load_after_loop_some _ _ _ Hjob Hloop).
      by apply reads_only_printed.
    + pose proof (reads_only_printed _ _ Hp) as Hro.
      destruct Hp as [out Hw1].
      unfold load_best_model_and_meta, try_except_if.
      erewrite (bind_inr import_joblib)
        by (unfold import_joblib; rewrite Hjob; reflexivity).
      erewrite (bind_inr (load_loop model_files)) by exact Hloop.
      cbn beta iota.
      erewrite (bind_inr (print _)) by reflexivity.
      assert (Hsk1 : sklearn w1 = sklearn w) by (by rewrite Hw1).
      destruct (sklearn w) as [fit |] eqn:Hsk.
      * erewrite (bind_inr import_RandomForestClassifier)
          by (unfold import_RandomForestClassifier; cbn [sklearn say set_console];
              rewrite Hsk1; reflexivity).
        set (w2 := say _ w1).
        destruct (np_random_rand_spec 100 6 w2) as (X & HX & _).
        erewrite (bind_inr (np_random_rand 100 6)) by exact HX.
        set (w3 := set_np_pos _ w2).
        destruct (np_random_randint_binary 100 w3) as (y & Hy & _).
        erewrite (bind_inr (np_random_randint 0 2 100)) by exact Hy.
        erewrite (bind_inr (print _)) by reflexivity.
        cbn [snd ret]. subst w3 w2.
        apply reads_only_say, reads_only_np, reads_only_np, reads_only_say, Hro.
      * erewrite (bind_inl import_RandomForestClassifier)
          by (unfold import_RandomForestClassifier; cbn [sklearn say set_console];
              rewrite Hsk1; reflexivity).
        cbn. apply reads_only_say, reads_only_say, Hro.
  - unfold load_best_model_and_meta, try_except_if.
    erewrite (bind_inl import_joblib)
      by (unfold import_joblib; rewrite Hjob; reflexivity).
    cbn. apply reads_only_say, reads_only_refl.
Qed.

(** What the loop returns comes from the files of the candidate. *)
Lemma load_loop_sound cands :
  forall w name mdl sc ae w',
    load_loop cands w = (inr (Some (name, mdl, sc, ae)), w') ->
    ae = None
    /\ exists path f,
         In (name, path) cands
         /\ files w !! path = Some f
         /\ unpickle f = inr mdl
         /\ match sc with
            | None => files w !! scaler_path_of path = None
            | Some o =>
                exists fs, files w !! scaler_path_of path = Some fs
                           /\ unpickle fs = inr o
            end.
Proof.
  induction cands as [| [n p] rest IH]; intros w name mdl sc ae w' Hloop.
  - discriminate.
  - rewrite load_loop_cons in Hloop.
    assert (Hrest : forall w1, files w1 = files w ->
              load_loop rest w1 = (inr (Some (name, mdl, sc, ae)), w') ->
              ae = None
              /\ exists path f,
                   In (name, path) ((n, p) :: rest)
                   /\ files w !! path = Some f
                   /\ unpickle f = inr mdl
                   /\ match sc with
                      | None => files w !! scaler_path_of path = None
                      | Some o =>
                          exists fs, files w !! scaler_path_of path = Some fs
                                     /\ unpickle fs = inr o
                      end).
    { intros w1 Hf H. destruct (IH _ _ _ _ _ _ H) as (Hae & path & f & Hin & H1 & H2 & H3).
      rewrite Hf in H1, H3. split; [exact Hae |].
      exists path, f. cbn [In]. auto. }
    destruct (files w !! p) as [f |] eqn:Hf; [| exact (Hrest w eq_refl Hloop)].
    destruct (unpickle f) as [e | m0] eqn:Hm; [eapply Hrest; [| exact Hloop]; reflexivity |].
    cbn zeta in Hloop.
    destruct (files w !! scaler_path_of p) as [fs |] eqn:Hs.
    + destruct (unpickle fs) as [e | o] eqn:Ho; [eapply Hrest; [| exact Hloop]; reflexivity |].
      injection Hloop as <- <- <- <- _. split; [reflexivity |].
      exists p, f. cbn [In]. rewrite Hs. eauto 7.
    + injection Hloop as <- <- <- <- _. split; [reflexivity |].
      exists p, f. cbn [In]. rewrite Hs. auto.
Qed.

Lemma load_loop_none_all_fail cands :
  forall w w',
    load_loop cands w = (inr None, w') ->
    Forall (candidate_fails (files w)) cands.
Proof.
  induction cands as [| [n p] rest IH]; intros w w' Hloop; [constructor |].
  rewrite load_loop_cons in Hloop.
  unfold candidate_fails at 1.
  constructor.
  - unfold candidate_fails. cbn [snd].
    destruct (files w !! p) as [f |]; [| exact I].
    destruct (unpickle f) as [e | m0]; [exact I |].
    cbn zeta in Hloop.
    destruct (files w !! scaler_path_of p) as [fs |]; [| discriminate].
    destruct (unpickle fs) as [e | o]; [exact I | discriminate].
  - destruct (files w !! p) as [f |]; [| by eapply IH].
    destruct (unpickle f) as [e | m0]; [by apply (IH _ _ Hloop) |].
    cbn zeta in Hloop.
    destruct (files w !! scaler_path_of p) as [fs |]; [| discriminate].
    destruct (unpickle fs) as [e | o]; [| discriminate].
    by apply (IH _ _ Hloop).
Qed.

(** X11: whatever [load_best_model_and_meta] returns, the fourth
    component is [None], and the model is either what [joblib.load] reads
    from the model file of a candidate of the list, returned under the
    name of that candidate with the scaler its scaler file holds ([None]
    exactly when that file is absent), or the demo classifier, returned
    under the name ["Demo_RandomForest"] without scaler and only when
    every candidate failed. *)
Theorem loader_returns_what_the_files_hold (w w' : World)
    (name : string) (mdl : PyObj) (sc ae : option PyObj) :
  load_best_model_and_meta w = (inr (name, mdl, sc, ae), w') ->
  ae = None
  /\ ((exists path f,
         In (name, path) model_files
         /\ files w !! path = Some f
         /\ unpickle f = inr mdl
         /\ match sc with
            | None => files w !! scaler_path_of path = None
            | Some o =>
                exists fs, files w !! scaler_path_of path = Some fs
                           /\ unpickle fs = inr o
            end)
      \/ (name = "Demo_RandomForest"
          /\ sc = None
          /\ Forall (candidate_fails (files w)) model_files
          /\ exists fit X y,
               sklearn w = Some fit /\ mdl = fit demo_params X y)).
Proof.
  intros Hload.
  destruct (joblib_available w) eqn:Hjob.
  - destruct (load_loop_total model_files w) as ([t |] & w1 & Hloop & Hp).
    + rewrite (load_after_loop_some _ _ _ Hjob Hloop) in Hload.
      injection Hload as -> _.
      destruct (load_loop_sound _ _ _ _ _ _ _ Hloop) as (Hae & H).
      split; [exact Hae | by left].
    + pose proof (load_after_empty_loop w w1 Hjob Hloop Hp) as H.
      destruct (sklearn w) as [fit |].
      * destruct H as (X & y & w2 & H & _). rewrite H in Hload.
        injection Hload as <- <- <- <- _. split; [reflexivity |]. right.
        split; [reflexivity |]. split; [reflexivity |].
        split; [by eapply load_loop_none_all_fail | eauto].
      * destruct H as (w2 & H & _). rewrite H in Hload. discriminate.
  - unfold load_best_model_and_meta, try_except_if in Hload.
    erewrite (bind_inl import_joblib) in Hload
      by (unfold import_joblib; rewrite Hjob; reflexivity).
    discriminate.
Qed.

Lemma loader_returns_what_the_files_hold_witness :
  exists path f,
    In ("XGBoost", path) model_files
    /\ files Examples.xgb_world !! path = Some f
    /\ unpickle f = inr (Examples.proba_model 0.9).
Proof.
  destruct (loader_returns_what_the_files_hold Examples.xgb_world
              (say (mark_ok ++ " Loaded XGBoost model from models/xgb_model.joblib")
                 Examples.xgb_world)
              "XGBoost" (Examples.proba_model 0.9) None None)
    as (_ & [(path & f & Hin & Hf & Hm & _) | (Hname & _)]).
  - vm_compute. reflexivity.
  - exists path, f. auto.
  - discriminate.
Defined.

(** X12: [load_best_model_and_meta] raises exactly when [joblib] cannot
    be imported, whatever the files and even when scikit-learn is there,
    or when every candidate fails and scikit-learn cannot be imported. In
    particular a missing scikit-learn does no harm when a candidate
    loads. *)
Theorem loader_fails_exactly_when (w : World) :
  (exists e w', load_best_model_and_meta w = (inl e, w'))
  <-> joblib_available w = false
      \/ (Forall (candidate_fails (files w)) model_files /\ sklearn w = None).
Proof.
  split.
  - intros (e & w' & Hload).
    destruct (joblib_available w) eqn:Hjob; [| by left]. right.
    destruct (load_loop_total model_files w) as ([t |] & w1 & Hloop & Hp).
    + rewrite (load_after_loop_some _ _ _ Hjob Hloop) in Hload. discriminate.
    + split; [by eapply load_loop_none_all_fail |].
      pose proof (load_after_empty_loop w w1 Hjob Hloop Hp) as H.
      destruct (sklearn w) as [fit |]; [| reflexivity].
      destruct H as (X & y & w2 & H & _). rewrite H in Hload. discriminate.
  - intros [Hjob | [Hall Hsk]].
    + unfold load_best_model_and_meta, try_except_if.
      erewrite (bind_inl import_joblib)
        by (unfold import_joblib; rewrite Hjob; reflexivity).
      cbn. eauto.
    + destruct (joblib_available w) eqn:Hjob.
      * destruct (load_loop_skip_all model_files [] w Hall) as (w1 & Hp & Hloop).
        rewrite app_nil_r in Hloop. cbn [load_loop] in Hloop.
        pose proof (load_after_empty_loop w w1 Hjob Hloop Hp) as H.
        rewrite Hsk in H. destruct H as (w2 & H & _). eauto.
      * unfold load_best_model_and_meta, try_except_if.
        erewrite (bind_inl import_joblib)
          by (unfold import_joblib; rewrite Hjob; reflexivity).
        cbn. eauto.
Qed.

(** A monitor [__init__] returns has the simulation parameters. *)
Lemma constructor_outcome_intact name mdl sc ae ws di (w : World) m w' :
  __init__ name mdl sc ae ws di w = (inr m, w') -> simulation_intact m.
Proof.
  unfold __init__. destruct (_init_log_file _) as [[e | u] s]; [discriminate |].
  intros [= <- _]. split; reflexivity.
Qed.

(** ** The self-test *)

Lemma call_inr {A} (m : Monitor) (c : M Ctx A) w a s :
  c {| self := m; world := w |} = (inr a, s) ->
  call m c w = (inr (a, self s), world s).
Proof. intros H. unfold call. by rewrite H. Qed.

(** The first pass of the loop of the self-test on a monitor as built:
    the record is there, it has no key ["prediction"], and the lookup
    raises. *)
Lemma main_loop_raises fmt (i : nat) (rest : list nat) (m : Monitor) (w : World) :
  simulation_intact m ->
  exists w1,
    main_loop fmt (i :: rest) m w = (inl (Exn KeyError "'prediction'"), w1)
    /\ w1 = world (snd (run_detection_once {| self := m; world := w |})).
Proof.
  intros Hsim.
  pose proof (detection_after_features {| self := m; world := w |} _ _
                (generate_constructed {| self := m; world := w |} Hsim)) as Hrun.
  cbn [self world] in Hrun.
  eexists. split; [| reflexivity].
  rewrite Hrun. cbn [main_loop].
  erewrite bind_inr by (apply call_inr; exact Hrun).
  cbn [fst snd]. reflexivity.
Qed.

(** X13: the self-test of the module cannot succeed. In every world and
    for every formatter, the body of its [try] raises, so that the line
    "completed successfully", which that body prints last, is never
    printed and [monitor.stop()] is never reached; the block itself does
    not raise and ends by printing "Test failed: " and the error.
    Whenever the model is loaded and the monitor is built, the error is
    the [KeyError] of the key ["prediction"], raised while the first
    detection is printed: the record of [run_detection_once] has no such
    key; by then that one tick has run, and the log has gained at most its
    row. *)
Theorem self_test_always_fails (fmt : Formatter) (w : World) :
  let w0 := say (mark_title ++ " AuthAI Cloud Core Module Test") w in
  exists e w1,
    main_body fmt w0 = (inl e, w1)
    /\ main fmt w
       = (inr tt, say (mark_failed ++ " Test failed: " ++ exn_msg e) w1)
    /\ (forall loaded wl m w2,
          load_best_model_and_meta w0 = (inr loaded, wl) ->
          __init__ (fst (fst (fst loaded))) (snd (fst (fst loaded)))
            (snd (fst loaded)) (snd loaded) 30.0 2.0
            (say (mark_ok ++ " Successfully loaded model: "
                  ++ fst (fst (fst loaded))) wl)
          = (inr m, w2) ->
          e = Exn KeyError "'prediction'"
          /\ w1 = world (snd (run_detection_once
                    {| self := set_is_running true m;
                       world := say ("Started cloud simulation monitor with model: "
                                     ++ model_name m) w2 |}))).
Proof.
  cbn zeta. set (w0 := say _ w).
  assert (Hbody : exists e w1,
            main_body fmt w0 = (inl e, w1)
            /\ (forall loaded wl m w2,
                  load_best_model_and_meta w0 = (inr loaded, wl) ->
                  __init__ (fst (fst (fst loaded))) (snd (fst (fst loaded)))
                    (snd (fst loaded)) (snd loaded) 30.0 2.0
                    (say (mark_ok ++ " Successfully loaded model: "
                          ++ fst (fst (fst loaded))) wl)
                  = (inr m, w2) ->
                  e = Exn KeyError "'prediction'"
                  /\ w1 = world (snd (run_detection_once
                            {| self := set_is_running true m;
                               world := say ("Started cloud simulation monitor with model: "
                                             ++ model_name m) w2 |})))).
  { unfold main_body.
    destruct (load_best_model_and_meta w0) as [[e | loaded] wl] eqn:Hload.
    { erewrite bind_inl by exact Hload. eexists _, _.
      split; [reflexivity | discriminate]. }
    erewrite bind_inr by exact Hload. cbn zeta.
    erewrite (bind_inr (print _)) by reflexivity.
    match goal with
    | |- context [bind (__init__ ?a ?b ?c ?d ?x ?y) _ ?wi] =>
        destruct (__init__ a b c d x y wi) as [[e | m] w2] eqn:Hinit
    end.
    { erewrite bind_inl by exact Hinit. eexists _, _.
      split; [reflexivity |]. intros ? ? ? ? [= <- <-]. rewrite Hinit. discriminate. }
    erewrite bind_inr by exact Hinit.
    assert (Hsim : simulation_intact m).
    { pose proof (constructor_outcome_intact _ _ _ _ _ _ _ _ _ Hinit). assumption. }
    erewrite bind_inr by (apply call_inr; reflexivity).
    cbn [snd self world].
    destruct (main_loop_raises fmt 0 [1; 2] (set_is_running true m)
                (say ("Started cloud simulation monitor with model: "
                      ++ model_name m) w2)) as (w1 & Hloop & Hw1).
    { exact Hsim. }
    change (seq 0 3) with [0; 1; 2].
    erewrite bind_inl by exact Hloop.
    exists (Exn KeyError "'prediction'"), w1. split; [reflexivity |].
    intros ? ? ? ? [= <- <-]. rewrite Hinit. intros [= <- <-].
    split; [reflexivity | exact Hw1]. }
  destruct Hbody as (e & w1 & Hbody & Hrest).
  exists e, w1. split; [exact Hbody |]. split; [| exact Hrest].
  unfold main. erewrite (bind_inr (print _)) by reflexivity.
  unfold try_except. fold w0. rewrite Hbody. reflexivity.
Qed.

Example self_test_on_an_empty_directory :
  console (snd (main Examples.plain_fmt Examples.empty_world))
  = [mark_title ++ " AuthAI Cloud Core Module Test";
     mark_info ++ " No trained models found, creating demo classifier...";
     mark_ok ++ " Created demo RandomForest model";
     mark_ok ++ " Successfully loaded model: Demo_RandomForest";
     "Started cloud simulation monitor with model: Demo_RandomForest";
     mark_failed ++ " Test failed: 'prediction'"].
Proof. vm_compute. reflexivity. Qed.

(** ** The bot simulator *)

Module BotFacts.
Import CloudBotSimulator.

(** The loop, entered with the flag set: it sleeps once per test that
    passes and stops at the first test that does not. *)
Lemma loop_stops (k : nat) :
  forall (fuel : nat) (start_time : Q) (s : BotState),
    is_running (sim s) = true ->
    Qgt_bool 0 (float_of (step_interval (sim s))) = false ->
    (forall j, j < k -> test_passes s start_time j = true) ->
    test_passes s start_time k = false ->
    k < fuel ->
    exists s',
      loop fuel start_time s = Some (inr tt, s')
      /\ duration_sec (sim s') = duration_sec (sim s)
      /\ step_interval (sim s') = step_interval (sim s)
      /\ out s' = out s
      /\ wall s' = wall s
      /\ wall_pos s' = S (k + wall_pos s)
      /\ naps s' = (naps s ++ repeat (float_of (step_interval (sim s))) k)%list
      /\ cleared s' = cleared s.
Proof.
  induction k as [| k IH]; intros fuel start_time s Hrun Hstep Hpass Hstop Hfuel.
  - destruct fuel as [| fuel]; [lia |]. cbn [loop].
    unfold test_passes in Hstop. cbn [Nat.add] in Hstop.
    unfold time_time, read_flag. cbn [sim wall wall_pos cleared].
    rewrite Hrun. cbn [andb].
    destruct (Qgt_bool (float_of (duration_sec (sim s)))
                (wall s (wall_pos s) - start_time)) eqn:Htime.
    + cbn [andb] in Hstop. rewrite Hstop.
      eexists. split; [reflexivity |]. cbn. rewrite app_nil_r.
      repeat split; reflexivity.
    + eexists. split; [reflexivity |]. cbn. rewrite app_nil_r.
      repeat split; reflexivity.
  - destruct fuel as [| fuel]; [lia |]. cbn [loop].
    pose proof (Hpass 0 ltac:(lia)) as H0.
    unfold test_passes in H0. cbn [Nat.add] in H0.
    apply andb_true_iff in H0. destruct H0 as [Htime Hflag].
    unfold time_time, read_flag. cbn [sim wall wall_pos cleared].
    rewrite Htime, Hrun, Hflag. cbn [andb negb].
    unfold bot_sleep. cbn [set_flag set_sim sim step_interval].
    rewrite Hstep.
    match goal with
    | |- context [loop fuel start_time ?s1] =>
        destruct (IH fuel start_time s1)
          as (s' & Hloop & Hd & Hs & Ho & Hw & Hp & Hn & Hc)
    end.
    + reflexivity.
    + exact Hstep.
    + intros j Hj. specialize (Hpass (S j) ltac:(lia)).
      unfold test_passes in *. cbn in *.
      by rewrite Nat.add_succ_r.
    + unfold test_passes in *. cbn in *. by rewrite Nat.add_succ_r.
    + lia.
    + exists s'. split; [exact Hloop |]. cbn in *.
      rewrite Hd, Hs, Ho, Hw, Hp, Hn, Hc, <- app_assoc, Nat.add_succ_r.
      repeat split; reflexivity.
Qed.

Lemma run_enters fmt fuel s :
  run fmt fuel s
  = match loop fuel (wall s (wall_pos s)) (entered fmt s) with
    | None => None
    | Some (inl e, s3) => Some (inl e, s3)
    | Some (inr _, s3) =>
        Some (bot_print (mark_bot ++ " Bot simulation completed")
                (set_flag false s3))
    end.
Proof. reflexivity. Qed.

(** X14: [run] ends when the clock has passed the duration or the flag
    has been cleared, whichever a test of the loop sees first. With a step
    that is not negative, if the first [k] tests of the loop pass and the
    next does not, [run] returns (given fuel for [k + 1] tests); it has
    slept exactly [k] times, each for the step, read the clock [k + 2]
    times, printed its two lines and nothing else, and left the flag
    [False]. *)
Theorem bot_run_stops (fmt : Formatter) (s : BotState) (k fuel : nat) :
  Qgt_bool 0 (float_of (step_interval (sim s))) = false ->
  (forall j, j < k ->
     test_passes (entered fmt s) (wall s (wall_pos s)) j = true) ->
  test_passes (entered fmt s) (wall s (wall_pos s)) k = false ->
  k < fuel ->
  exists s',
    run fmt fuel s = Some (inr tt, s')
    /\ is_running (sim s') = false
    /\ duration_sec (sim s') = duration_sec (sim s)
    /\ step_interval (sim s') = step_interval (sim s)
    /\ out s'
       = (out s
          ++ [(mark_bot ++ " Starting bot simulation for "
               ++ str_num fmt (duration_sec (sim s)) ++ " seconds...")%string;
              (mark_bot ++ " Bot simulation completed")%string])%list
    /\ naps s' = (naps s ++ repeat (float_of (step_interval (sim s))) k)%list
    /\ wall_pos s' = k + 2 + wall_pos s.
Proof.
  intros Hstep Hpass Hstop Hfuel.
  destruct (loop_stops k fuel (wall s (wall_pos s)) (entered fmt s))
    as (s3 & Hloop & Hd & Hs & Ho & Hw & Hp & Hn & Hc);
    try assumption; try reflexivity.
  rewrite run_enters, Hloop. eexists. split; [reflexivity |].
  cbn in *. rewrite Hd, Hs, Ho, Hn, Hp, <- app_assoc.
  repeat split; try reflexivity. lia.
Qed.

Lemma bot_run_stops_witness :
  exists s',
    run Examples.plain_fmt 10 Examples.bot_state = Some (inr tt, s')
    /\ is_running (sim s') = false
    /\ naps s' = [0.5%Q].
Proof.
  destruct (bot_run_stops Examples.plain_fmt Examples.bot_state 1 10)
    as (s' & Hrun & Hflag & _ & _ & _ & Hnaps & _).
  - reflexivity.
  - intros j Hj. assert (j = 0) as -> by lia. reflexivity.
  - reflexivity.
  - lia.
  - exists s'. repeat split; assumption.
Defined.

(** X15: [run] has no handler. With a negative step and a first test
    that passes, [time.sleep] raises out of [run]: the completion line is
    not printed, nothing was slept, and the flag is left [True]. *)
Theorem bot_negative_step_raises (fmt : Formatter) (s : BotState) (fuel : nat) :
  Qgt_bool 0 (float_of (step_interval (sim s))) = true ->
  test_passes (entered fmt s) (wall s (wall_pos s)) 0 = true ->
  0 < fuel ->
  exists s',
    run fmt fuel s
    = Some (inl (Exn OtherError "sleep length must be non-negative"), s')
    /\ is_running (sim s') = true
    /\ out s'
       = (out s
          ++ [(mark_bot ++ " Starting bot simulation for "
               ++ str_num fmt (duration_sec (sim s)) ++ " seconds...")%string])%list
    /\ naps s' = naps s.
Proof.
  intros Hstep Hpass Hfuel.
  destruct fuel as [| fuel]; [lia |].
  rewrite run_enters. cbn [loop].
  unfold test_passes in Hpass. cbn [Nat.add] in Hpass.
  apply andb_true_iff in Hpass. destruct Hpass as [Htime Hflag].
  unfold time_time, read_flag. cbn [sim wall wall_pos cleared entered] in *.
  cbn [duration_sec is_running] in *.
  rewrite Htime, Hflag. cbn [andb negb].
  unfold bot_sleep. cbn [set_flag set_sim sim step_interval].
  rewrite Hstep. eexists. split; [reflexivity |]. repeat split.
Qed.

Lemma bot_negative_step_raises_witness :
  exists s',
    run Examples.plain_fmt 1 Examples.bot_state_negative_step
    = Some (inl (Exn OtherError "sleep length must be non-negative"), s')
    /\ is_running (sim s') = true.
Proof.
  destruct (bot_negative_step_raises Examples.plain_fmt
              Examples.bot_state_negative_step 1)
    as (s' & Hrun & Hflag & _).
  - reflexivity.
  - reflexivity.
  - lia.
  - exists s'. split; assumption.
Defined.

End BotFacts.

(** ** Errors inside a tick: what each step leaves behind *)





(** ** The log of a monitor, from a log file that was absent *)

(** X9: when the monitor is built in a world where the log file is absent
    (and can be created), then after any script of starts, stops and
    ticks the log file holds the header row followed by exactly one row
    per tick, in the order of the ticks; every tick returns a record,
    whether the monitor is started or not, and the row of a tick holds the
    values of its record under the eleven column names, in the order of
    the header. *)
Theorem fresh_log_one_row_per_tick
    name mdl sc ae ws di (w : World) (ops : list MonitorOp) :
  files w !! "detections_log.csv" = None ->
  "detections_log.csv" ∉ readonly w ->
  let names :=
    ["timestamp"; "user_id"; "model"; "score"; "is_improper";
     "avg_mouse_speed"; "avg_typing_speed"; "tab_switch_rate";
     "mouse_click_rate"; "keyboard_error_rate"; "active_window_duration"] in
  exists m w1 ds rs s' f,
    __init__ name mdl sc ae ws di w = (inr m, w1)
    /\ run_script ops {| self := m; world := w1 |} = (inr (map Some ds), s')
    /\ files (world s') !! "detections_log.csv" = Some f
    /\ rows f = map VStr names :: rs
    /\ length ds = ticks_of ops
    /\ length rs = ticks_of ops
    /\ Forall2 (fun d r => row_under names d r) ds rs.
Proof.
  intros Hf Hro names.
  destruct (init_creates_log name mdl sc ae ws di w Hf Hro)
    as (m & w1 & Hinit & Hsim & Hp & _ & Hro1 & Hlog).
  destruct (script_logs_one_row_per_tick ops {| self := m; world := w1 |}
              {| rows := [headers]; unpickle := not_a_pickle |})
    as (ds & rs & s' & Hrun & Hrows & _ & Hn & Hlog');
    cbn [self world]; rewrite ?Hp; try assumption.
  { by rewrite Hro1. }
  cbn [self] in Hlog'. rewrite Hp in Hlog'.
  eexists m, w1, ds, rs, s', _.
  split; [exact Hinit |]. split; [exact Hrun |]. split; [exact Hlog' |].
  split; [reflexivity |].
  split; [by rewrite (Forall2_length _ _ _ Hrows) |].
  split; [exact Hn |].
  eapply Forall2_impl; [exact Hrows |].
  intros d r Hr. by apply (detection_row_under columns).
Qed.

Lemma fresh_log_one_row_per_tick_witness :
  exists m w1 ds rs s' f,
    __init__ "demo" (Examples.proba_model 0.9) None None 30.0 2.0
      Examples.empty_world = (inr m, w1)
    /\ run_script [OpTick; OpStart; OpTick; OpStop; OpTick]
         {| self := m; world := w1 |} = (inr (map Some ds), s')
    /\ files (world s') !! "detections_log.csv" = Some f
    /\ rows f = headers :: rs
    /\ length rs = 3.
Proof.
  destruct (fresh_log_one_row_per_tick
              "demo" (Examples.proba_model 0.9) None None 30.0 2.0
              Examples.empty_world [OpTick; OpStart; OpTick; OpStop; OpTick])
    as (m & w1 & ds & rs & s' & f & H1 & H2 & H3 & H4 & _ & H5 & _).
  - reflexivity.
  - vm_compute. set_solver.
  - exists m, w1, ds, rs, s', f. repeat split; assumption.
Defined.





